(** * The tool-augmented conversation driver of the course-material chatbot

    A shallow embedding of [backend/ai_generator.py] (class [AIGenerator]):
    the request the driver builds, the bounded tool-execution loop and the
    extraction of the final text, together with the tool registry the driver
    dispatches to.

    The model endpoint and the tool manager are objects the driver only calls:
    they are embedded as methods acting on an abstract world, and every call
    is recorded, with its outcome, in the trace of the run. *)

From Stdlib Require Import ZArith Lia Ascii String.
From stdpp Require Import base list strings gmap.

Open Scope string_scope.
Open Scope list_scope.

(** ** Characters that cannot be typed inside a string literal *)

Definition nl : string := String "010"%char EmptyString.
Definition dq : string := String "034"%char EmptyString.

(** [needle in hay] of Python, as a proposition. *)
Definition contains (needle hay : string) : Prop :=
  exists pre post : string, hay = pre +:+ needle +:+ post.

(** ** Data exchanged with the model *)

(** JSON values: tool schemas and the [input] dict of a tool_use block. The
    driver never looks inside them. *)
#[local] Set Warnings "-register-all".
Inductive json : Type :=
| JNull
| JBool (b : bool)
| JNum (n : Z)
| JStr (s : string)
| JList (l : list json)
| JDict (d : list (string * json)).
#[local] Set Warnings "register-all".

Abbreviation kwargs := (list (string * json)).

(** Content blocks of a model response, as the SDK delivers them: a text
    block has a [text] attribute, a tool_use block has [id], [name] and
    [input] and its [type] is "tool_use"; any other block (a thinking block)
    has neither a [text] attribute nor the "tool_use" type. *)
Inductive ContentBlock : Type :=
| TextBlock (text : string)
| ToolUseBlock (id name : string) (input : kwargs)
| ThinkingBlock (thinking : string).

Definition block_type (b : ContentBlock) : string :=
  match b with
  | TextBlock _ => "text"
  | ToolUseBlock _ _ _ => "tool_use"
  | ThinkingBlock _ => "thinking"
  end.

(** [getattr(block, 'text')]; [None] when the attribute does not exist. *)
Definition block_text (b : ContentBlock) : option string :=
  match b with
  | TextBlock t => Some t
  | _ => None
  end.

Definition block_class (b : ContentBlock) : string :=
  match b with
  | TextBlock _ => "TextBlock"
  | ToolUseBlock _ _ _ => "ToolUseBlock"
  | ThinkingBlock _ => "ThinkingBlock"
  end.

Record Response : Type := mkResponse {
  resp_content : list ContentBlock;
  stop_reason : string
}.

(** The dict built for each executed tool call. *)
Record ToolResult : Type := mkToolResult {
  tr_type : string;
  tool_use_id : string;
  tr_content : string
}.

(** The content of a conversation turn: the query text, the content blocks
    of a model response, or a list of tool results. *)
Inductive MessageContent : Type :=
| TextContent (s : string)
| BlockContent (bs : list ContentBlock)
| ResultContent (rs : list ToolResult).

Record Message : Type := mkMessage {
  role : string;
  msg_content : MessageContent
}.

Record ToolChoice : Type := mkToolChoice { tc_type : string }.

(** The keyword arguments of [client.messages.create]. The keys "tools" and
    "tool_choice" are optional: [None] is an absent key. *)
Record Request : Type := mkRequest {
  model : string;
  temperature : Z;
  max_tokens : Z;
  messages : list Message;
  system : string;
  tools : option (list json);
  tool_choice : option ToolChoice
}.

(** ** Exceptions and outcomes *)

Record exn : Type := mkExn {
  exn_class : string;
  exn_message : string
}.

Inductive Outcome (A : Type) : Type :=
| Ok (a : A)
| Raise (e : exn).
Arguments Ok {A} a.
Arguments Raise {A} e.

Definition IndexError : exn :=
  mkExn "IndexError" "list index out of range".

Definition AttributeError (b : ContentBlock) : exn :=
  mkExn "AttributeError"
        ("'" +:+ block_class b +:+ "' object has no attribute 'text'").

(** ** The static system prompt *)

Definition SYSTEM_PROMPT_lines : list string :=
  [
    " You are an AI assistant specialized in course materials and educational content with access to tools for course information.";
    EmptyString;
    "Available Tools:";
    "1. **search_course_content** - Search within course content for specific information";
    "2. **get_course_outline** - Get course structure (title, course link, lesson list with numbers and titles)";
    EmptyString;
    "Tool Selection:";
    "- **Outline queries** (course structure, lesson lists, what topics a course covers): Use get_course_outline";
    "  - For outline responses, include: course title, course link, and all lessons with their numbers and titles";
    "- **Content queries** (specific information, explanations, details within lessons): Use search_course_content";
    "- You may use multiple tools if needed to fully answer a question";
    "- If a tool yields no results, state this clearly without offering alternatives";
    EmptyString;
    "Response Protocol:";
    "- **General knowledge questions**: Answer using existing knowledge without searching";
    "- **Course-specific questions**: Use appropriate tool first, then answer";
    "- **No meta-commentary**:";
    " - Provide direct answers only â€” no reasoning process, search explanations, or question-type analysis";
    " - Do not mention " +:+ dq +:+ "based on the search results" +:+ dq +:+ " or " +:+ dq +:+ "based on the outline" +:+ dq;
    EmptyString;
    "All responses must be:";
    "1. **Brief, Concise and focused** - Get to the point quickly";
    "2. **Educational** - Maintain instructional value";
    "3. **Clear** - Use accessible language";
    "4. **Example-supported** - Include relevant examples when they aid understanding";
    "Provide only the direct answer to what was asked."
  ].

(** Every line of the triple-quoted literal ends with a newline. *)
Definition SYSTEM_PROMPT : string :=
  foldr (fun line rest => line +:+ nl +:+ rest) EmptyString SYSTEM_PROMPT_lines.

(** ** Runs: state, exceptions and the trace of external calls *)

(** What the driver does to the outside world: a model request and a tool
    execution, each with the outcome the callee gave. A request is recorded
    as it is at the moment of the call; the list the loop keeps appending to
    afterwards is the next request's. *)
Inductive Event : Type :=
| EvCreate (req : Request) (out : Outcome Response)
| EvTool (name : string) (input : kwargs) (out : Outcome string).

Definition raised (ev : Event) : option exn :=
  match ev with
  | EvCreate _ (Raise e) => Some e
  | EvTool _ _ (Raise e) => Some e
  | _ => None
  end.

(** The requests of a trace, in the order they were issued. *)
Fixpoint requests (tr : list Event) : list Request :=
  match tr with
  | [] => []
  | EvCreate req _ :: tr' => req :: requests tr'
  | EvTool _ _ _ :: tr' => requests tr'
  end.

(** The requests of a trace with the outcome of each. *)
Fixpoint exchanges (tr : list Event) : list (Request * Outcome Response) :=
  match tr with
  | [] => []
  | EvCreate req out :: tr' => (req, out) :: exchanges tr'
  | EvTool _ _ _ :: tr' => exchanges tr'
  end.

(** The tool executions of a trace: name and keyword arguments. *)
Fixpoint tool_calls (tr : list Event) : list (string * kwargs) :=
  match tr with
  | [] => []
  | EvCreate _ _ :: tr' => tool_calls tr'
  | EvTool name input _ :: tr' => (name, input) :: tool_calls tr'
  end.

(** The strings the tool executions of a trace returned. *)
Fixpoint tool_outputs (tr : list Event) : list string :=
  match tr with
  | [] => []
  | EvTool _ _ (Ok s) :: tr' => s :: tool_outputs tr'
  | _ :: tr' => tool_outputs tr'
  end.

Section Driver.

(** The state of everything outside the driver: the model endpoint, the
    tools and their stores. *)
Variable World : Type.

Record Run (A : Type) : Type := mkRun {
  result : Outcome A;
  trace : list Event;
  world : World
}.
Arguments mkRun {A} result trace world.
Arguments result {A} r.
Arguments trace {A} r.
Arguments world {A} r.

Definition M (A : Type) : Type := World -> Run A.

Definition ret {A : Type} (a : A) : M A :=
  fun w => mkRun (Ok a) [] w.

Definition raise {A : Type} (e : exn) : M A :=
  fun w => mkRun (Raise e) [] w.

(** Sequencing: an exception ends the run where it was raised. *)
Definition bind {A B : Type} (m : M A) (k : A -> M B) : M B :=
  fun w =>
    let r := m w in
    match result r with
    | Ok a =>
        let r' := k a (world r) in
        mkRun (result r') (trace r ++ trace r') (world r')
    | Raise e => mkRun (Raise e) (trace r) (world r)
    end.

Notation "x <- m ;; k" := (bind m (fun x => k))
  (at level 100, m at next level, right associativity).

(** [anthropic.Anthropic]: the driver uses [client.messages.create] only. *)
Record Client : Type := mkClient {
  messages_create : Request -> World -> Outcome Response * World
}.

(** The tool manager as the driver sees it: any object with an
    [execute_tool(name, **kwargs)] method. *)
Record ToolExecutor : Type := mkToolExecutor {
  execute_tool : string -> kwargs -> World -> Outcome string * World
}.

Definition call_create (c : Client) (req : Request) : M Response :=
  fun w =>
    let '(out, w') := messages_create c req w in
    mkRun out [EvCreate req out] w'.

Definition call_execute_tool (tm : ToolExecutor) (name : string)
    (input : kwargs) : M string :=
  fun w =>
    let '(out, w') := execute_tool tm name input w in
    mkRun out [EvTool name input out] w'.

(** ** class AIGenerator *)

Record AIGenerator : Type := mkAIGenerator {
  client : Client;
  self_model : string
}.

(** [self.base_params], with the two keys every request adds. *)
Definition base_params (self : AIGenerator) (msgs : list Message)
    (system_content : string) : Request :=
  {| model := self_model self;
     temperature := 0;
     max_tokens := 800;
     messages := msgs;
     system := system_content;
     tools := None;
     tool_choice := None |}.

Definition with_tools (p : Request) (ts : list json) : Request :=
  {| model := model p;
     temperature := temperature p;
     max_tokens := max_tokens p;
     messages := messages p;
     system := system p;
     tools := Some ts;
     tool_choice := Some (mkToolChoice "auto") |}.

(** Truth value of an [Optional[str]]: [None] and the empty string are
    false. *)
Definition str_truthy (s : option string) : bool :=
  match s with
  | Some (String _ _) => true
  | _ => false
  end.

(** Truth value of an [Optional[List]]: [None] and [[]] are false. *)
Definition list_truthy {A : Type} (l : option (list A)) : bool :=
  match l with
  | Some (_ :: _) => true
  | _ => false
  end.

Definition system_content_of (conversation_history : option string) : string :=
  match conversation_history with
  | Some h =>
      if str_truthy conversation_history
      then SYSTEM_PROMPT +:+ nl +:+ nl +:+ "Previous conversation:" +:+ nl +:+ h
      else SYSTEM_PROMPT
  | None => SYSTEM_PROMPT
  end.

Definition api_params_of (self : AIGenerator) (query : string)
    (conversation_history : option string) (tools : option (list json))
    : Request :=
  let api_params :=
    base_params self [mkMessage "user" (TextContent query)]
                (system_content_of conversation_history) in
  match tools with
  | Some ts => if list_truthy tools then with_tools api_params ts else api_params
  | None => api_params
  end.

(** The [for] loop over the content blocks of a response: every block whose
    [type] is "tool_use" is executed, in order, and its result appended to
    [tool_results]. *)
Fixpoint execute_tools (tool_manager : ToolExecutor)
    (blocks : list ContentBlock) (tool_results : list ToolResult)
    : M (list ToolResult) :=
  match blocks with
  | [] => ret tool_results
  | ToolUseBlock id name input :: blocks' =>
      tool_result <- call_execute_tool tool_manager name input ;;
      execute_tools tool_manager blocks'
        (tool_results ++ [mkToolResult "tool_result" id tool_result])
  | _ :: blocks' => execute_tools tool_manager blocks' tool_results
  end.

(** The messages of the next request: the tool results become one user
    turn, unless there are none. *)
Definition add_tool_results (msgs : list Message)
    (tool_results : list ToolResult) : list Message :=
  match tool_results with
  | [] => msgs
  | _ :: _ => msgs ++ [mkMessage "user" (ResultContent tool_results)]
  end.

Definition next_params_of (self : AIGenerator) (base : Request)
    (msgs : list Message) : Request :=
  let next_params := base_params self msgs (system base) in
  match tools base with
  | Some ts => with_tools next_params ts
  | None => next_params
  end.

(** The [while iteration < max_iterations] loop; [remaining] is
    [max_iterations - iteration]. It yields the last response received. *)
Fixpoint tool_loop (self : AIGenerator) (base : Request)
    (tool_manager : ToolExecutor) (remaining : nat)
    (msgs : list Message) (current_response : Response) : M Response :=
  match remaining with
  | O => ret current_response
  | S remaining' =>
      let msgs :=
        msgs ++ [mkMessage "assistant"
                           (BlockContent (resp_content current_response))] in
      tool_results <-
        execute_tools tool_manager (resp_content current_response) [] ;;
      let msgs := add_tool_results msgs tool_results in
      current_response <-
        call_create (client self) (next_params_of self base msgs) ;;
      if stop_reason current_response =? "tool_use"
      then tool_loop self base tool_manager remaining' msgs current_response
      else ret current_response
  end.

Definition NO_RESPONSE : string :=
  "I was unable to generate a response. Please try rephrasing your question.".

Definition NO_TEXT_RESPONSE : string :=
  "I was unable to generate a text response. Please try again.".

(** The first block that has a [text] attribute. *)
Fixpoint first_text (blocks : list ContentBlock) : option string :=
  match blocks with
  | [] => None
  | block :: blocks' =>
      match block_text block with
      | Some t => Some t
      | None => first_text blocks'
      end
  end.

Definition extract_text (current_response : Response) : string :=
  match resp_content current_response with
  | [] => NO_RESPONSE
  | _ :: _ =>
      match first_text (resp_content current_response) with
      | Some t => t
      | None => NO_TEXT_RESPONSE
      end
  end.

Definition _handle_tool_execution (self : AIGenerator)
    (initial_response : Response) (base : Request)
    (tool_manager : ToolExecutor) (max_iterations : nat) : M string :=
  current_response <-
    tool_loop self base tool_manager max_iterations (messages base)
              initial_response ;;
  ret (extract_text current_response).

(** [response.content[0].text] *)
Definition first_block_text (response : Response) : M string :=
  match resp_content response with
  | [] => raise IndexError
  | block :: _ =>
      match block_text block with
      | Some t => ret t
      | None => raise (AttributeError block)
      end
  end.

(** The loop runs with the default [max_iterations] of
    [_handle_tool_execution], 3. *)
Definition generate_response (self : AIGenerator) (query : string)
    (conversation_history : option string) (tools : option (list json))
    (tool_manager : option ToolExecutor) : M string :=
  let api_params := api_params_of self query conversation_history tools in
  response <- call_create (client self) api_params ;;
  match tool_manager with
  | Some tm =>
      if stop_reason response =? "tool_use"
      then _handle_tool_execution self response api_params tm 3
      else first_block_text response
  | None => first_block_text response
  end.

End Driver.

Arguments mkRun {World A} result trace world.
Arguments result {World A} r.
Arguments trace {World A} r.
Arguments world {World A} r.
Arguments ret {World A} a _.
Arguments raise {World A} e _.
Arguments bind {World A B} m k _.
Arguments mkClient {World} messages_create.
Arguments messages_create {World} c req w.
Arguments mkToolExecutor {World} execute_tool.
Arguments execute_tool {World} t name input w.
Arguments call_create {World} c req _.
Arguments call_execute_tool {World} tm name input _.
Arguments mkAIGenerator {World} client self_model.
Arguments client {World} a.
Arguments self_model {World} a.
Arguments base_params {World} self msgs system_content.
Arguments api_params_of {World} self query conversation_history tools.
Arguments next_params_of {World} self base msgs.
Arguments execute_tools {World} tool_manager blocks tool_results _.
Arguments tool_loop {World} self base tool_manager remaining msgs
  current_response _.
Arguments _handle_tool_execution {World} self initial_response base
  tool_manager max_iterations _.
Arguments first_block_text {World} response _.
Arguments generate_response {World} self query conversation_history tools
  tool_manager _.

(** ** The tool registry *)

Module ToolManager.

(** Modelled from the spec: the tool registry is the class [ToolManager] of
    search_tools.py, a file that is not among the sources. A tool definition
    has a name, a description and an input schema. *)
Record ToolDefinition : Type := mkToolDefinition {
  name : string;
  description : string;
  input_schema : json
}.

(** Modelled from the spec: a capability, with its definition and its
    [execute] method, which returns a string or raises. *)
Record Tool (World : Type) : Type := mkTool {
  get_tool_definition : ToolDefinition;
  execute : kwargs -> World -> Outcome string * World
}.
Arguments mkTool {World} get_tool_definition execute.
Arguments get_tool_definition {World} t.
Arguments execute {World} t kw w.

(** Modelled from the spec: the manager holds the registered capabilities
    by name. *)
Record t (World : Type) : Type := mkToolManager {
  tools : gmap string (Tool World)
}.
Arguments mkToolManager {World} tools.
Arguments tools {World} t.

(** Modelled from the spec: a manager with nothing registered. *)
Definition empty {World : Type} : t World := mkToolManager ∅.

(** Modelled from the spec: [register] adds a capability keyed by its
    definition's name; the last registration for a name wins. *)
Definition register_tool {World : Type} (self : t World) (tool : Tool World)
    : t World :=
  mkToolManager (<[name (get_tool_definition tool) := tool]> (tools self)).

(** Modelled from the spec: [execute] looks the capability up by name; an
    absent name gives the string "Tool '<name>' not found", returned and
    not raised; otherwise the capability's own result is returned as it
    is. *)
Definition execute_tool {World : Type} (self : t World) (tool_name : string)
    (kw : kwargs) (w : World) : Outcome string * World :=
  match tools self !! tool_name with
  | None => (Ok ("Tool '" +:+ tool_name +:+ "' not found"), w)
  | Some tool => execute tool kw w
  end.

(** The registry as the [tool_manager] argument of the driver. *)
Definition as_executor {World : Type} (self : t World) : ToolExecutor World :=
  mkToolExecutor (execute_tool self).

End ToolManager.

(** ** Scripted collaborators

    The model endpoint of the test-suite: a mock whose [side_effect] is a
    list of outcomes, handed out one per call. The world is the part of the
    script not yet consumed. *)

Definition Script : Type := list (Outcome Response).

Definition StopIteration : exn := mkExn "StopIteration" EmptyString.

Definition scripted_client : Client Script :=
  mkClient (fun _ w =>
    match w with
    | [] => (Raise StopIteration, [])
    | out :: w' => (out, w')
    end).

Definition scripted_generator : AIGenerator Script :=
  mkAIGenerator scripted_client "test-model".

(** A tool manager whose every execution returns the same string, and one
    whose every execution raises. *)
Definition constant_tools {World : Type} (s : string) : ToolExecutor World :=
  mkToolExecutor (fun _ _ w => (Ok s, w)).

Definition failing_tools {World : Type} (e : exn) : ToolExecutor World :=
  mkToolExecutor (fun _ _ w => (Raise e, w)).

(** The responses and the tool schema of the test-suite. *)

Definition sample_tools : list json :=
  [JDict
     [("name", JStr "search_course_content");
      ("description", JStr "Search course materials");
      ("input_schema",
       JDict
         [("type", JStr "object");
          ("properties",
           JDict
             [("query", JDict [("type", JStr "string")]);
              ("course_name", JDict [("type", JStr "string")])]);
          ("required", JList [JStr "query"])])]].

Definition tool_use_response : Response :=
  mkResponse
    [ToolUseBlock "tool_123" "search_course_content"
                  [("query", JStr "Python basics")]]
    "tool_use".

Definition final_response : Response :=
  mkResponse [TextBlock "Based on the search, Python is great."] "end_turn".

(** A registry holding one search capability. *)
Definition search_tool : ToolManager.Tool Script :=
  ToolManager.mkTool
    (ToolManager.mkToolDefinition "search_course_content"
       "Search course materials" (JDict [("type", JStr "object")]))
    (fun _ w => (Ok "Search results: Python content found", w)).

Definition sample_manager : ToolManager.t Script :=
  ToolManager.register_tool ToolManager.empty search_tool.

(** A response that stops for tool use and holds no tool_use block, and a
    response without content. *)
Definition lookup_announcement : Response :=
  mkResponse [TextBlock "Let me look that up."] "tool_use".

Definition empty_response : Response := mkResponse [] "end_turn".

Definition api_error : exn := mkExn "Exception" "API Error".

Definition tool_failure : exn := mkExn "Exception" "Tool execution failed".

(** A response that announces the search in a text block before the
    tool_use block. *)
Definition announced_tool_use : Response :=
  mkResponse
    [TextBlock "I will search the course.";
     ToolUseBlock "tool_123" "search_course_content"
                  [("query", JStr "Python basics")]]
    "tool_use".

(** ** Derived notions used in the statements *)

(** The ids of the tool_use blocks of a response, in order. *)
Fixpoint tool_use_ids (blocks : list ContentBlock) : list string :=
  match blocks with
  | [] => []
  | ToolUseBlock id _ _ :: blocks' => id :: tool_use_ids blocks'
  | _ :: blocks' => tool_use_ids blocks'
  end.

(** The calls the tool_use blocks of a response ask for, in order. *)
Fixpoint tool_use_calls (blocks : list ContentBlock) : list (string * kwargs) :=
  match blocks with
  | [] => []
  | ToolUseBlock _ name input :: blocks' =>
      (name, input) :: tool_use_calls blocks'
  | _ :: blocks' => tool_use_calls blocks'
  end.

(** [results] answers the tool_use blocks [blocks] one for one and in order:
    as many results as blocks, the k-th result carrying the id of the k-th
    block, each tagged "tool_result". *)
Definition answers (blocks : list ContentBlock) (results : list ToolResult)
    : Prop :=
  tool_use_id <$> results = tool_use_ids blocks /\
  Forall (fun r => tr_type r = "tool_result") results.

Definition assistant_turn (response : Response) : Message :=
  mkMessage "assistant" (BlockContent (resp_content response)).

Definition user_turn (results : list ToolResult) : Message :=
  mkMessage "user" (ResultContent results).

(** The turns the claim on tool results asks for between a request [r1],
    answered by [resp1], and the request [r2] after it: the assistant turn
    and then one user turn that answers the tool_use blocks of [resp1]. *)
Definition answered_turns (r1 : Request) (resp1 : Response) (r2 : Request)
    : Prop :=
  exists results,
    answers (resp_content resp1) results /\
    messages r2 = messages r1 ++ [assistant_turn resp1; user_turn results].

Definition every_response_answered (xs : list (Request * Outcome Response))
    : Prop :=
  forall i r1 resp1 r2 o2,
    xs !! i = Some (r1, Ok resp1) ->
    xs !! S i = Some (r2, o2) ->
    answered_turns r1 resp1 r2.

(** The shape of the follow-up exchanges of the loop, started with the
    message history [msgs], the response [cur] and [n] iterations left:
    each request is built from the history extended with the answer to the
    response before it, and the exchanges stop at an exception, at a response
    that asks for no tool, and when the iterations are used up. *)
Fixpoint chain {World : Type} (self : AIGenerator World) (base : Request)
    (n : nat) (msgs : list Message) (cur : Response)
    (xs : list (Request * Outcome Response)) {struct xs} : Prop :=
  match xs with
  | [] => True
  | (req, out) :: xs' =>
      match n with
      | O => False
      | S n' =>
          (exists results,
              answers (resp_content cur) results /\
              req = next_params_of self base
                      (add_tool_results (msgs ++ [assistant_turn cur]) results)) /\
          match out with
          | Ok next =>
              if stop_reason next =? "tool_use"
              then chain self base n' (messages req) next xs'
              else xs' = []
          | Raise _ => xs' = []
          end
      end
  end.

(** No call of the trace raised. *)
Definition quiet (tr : list Event) : Prop :=
  Forall (fun ev => raised ev = None) tr.

(** Exceptions of the collaborators end the run and are its result: either
    no call raised, or the last call of the trace raised and the run's result
    is that very exception. *)
Definition propagating {World A : Type} (r : Run World A) : Prop :=
  quiet (trace r) \/
  exists pre ev e,
    trace r = pre ++ [ev] /\ quiet pre /\ raised ev = Some e /\
    result r = Raise e.

(** A response cut off by the token limit after it began a tool_use
    block. *)
Definition truncated_response : Response :=
  mkResponse
    [TextBlock "Let me search the course.";
     ToolUseBlock "tool_9" "search_course_content" []]
    "max_tokens".

(** A response whose text comes after a thinking block and a tool_use
    block. *)
Definition late_text_response : Response :=
  mkResponse
    [ThinkingBlock "The search returned one lesson.";
     ToolUseBlock "tool_7" "get_course_outline" [("course_name", JStr "MCP")];
     TextBlock "MCP is a protocol.";
     TextBlock "It has three lessons."]
    "end_turn".

(** What the claim on queries without a tool manager asks of the result:
    the run returns the text of the first content block of [response]. *)
Definition returns_first_block_text {World : Type} (run : Run World string)
    (response : Response) : Prop :=
  exists t,
    result run = Ok t /\
    match resp_content response with
    | block :: _ => block_text block = Some t
    | [] => False
    end.

(** ** Rounds of a query *)

(** The trace cut after each model request: the tool executions since the
    request before, the request and its outcome. Executions after the last
    request belong to no round. *)
Fixpoint rounds_from (pending tr : list Event)
    : list (list Event * Request * Outcome Response) :=
  match tr with
  | [] => []
  | EvCreate req out :: tr' => (pending, req, out) :: rounds_from [] tr'
  | ev :: tr' => rounds_from (pending ++ [ev]) tr'
  end.

Definition rounds (tr : list Event)
    : list (list Event * Request * Outcome Response) :=
  rounds_from [] tr.

(** The tool_result dicts for the tool_use blocks [blocks] and the strings
    [outputs] their executions returned. *)
Definition tool_results_of (blocks : list ContentBlock)
    (outputs : list string) : list ToolResult :=
  zip_with (mkToolResult "tool_result") (tool_use_ids blocks) outputs.

(** The request that follows the response [response] to a request with the
    messages [msgs], after the tool executions [executions]. *)
Definition follow_up {World : Type} (self : AIGenerator World)
    (base : Request) (msgs : list Message) (response : Response)
    (executions : list Event) : Request :=
  next_params_of self base
    (add_tool_results (msgs ++ [assistant_turn response])
       (tool_results_of (resp_content response) (tool_outputs executions))).

(** The shape of the follow-up rounds of the loop: [chain] with the tool
    executions of each round. *)
Fixpoint chain_rounds {World : Type} (self : AIGenerator World)
    (base : Request) (n : nat) (msgs : list Message) (cur : Response)
    (rs : list (list Event * Request * Outcome Response)) {struct rs} : Prop :=
  match rs with
  | [] => True
  | (evs, req, out) :: rs' =>
      match n with
      | O => False
      | S n' =>
          (quiet evs /\
           tool_calls evs = tool_use_calls (resp_content cur) /\
           req = follow_up self base msgs cur evs) /\
          match out with
          | Ok next =>
              if stop_reason next =? "tool_use"
              then chain_rounds self base n' (messages req) next rs'
              else rs' = []
          | Raise _ => rs' = []
          end
      end
  end.

(** The responses a later request answers: the response of every exchange
    but the last. *)
Fixpoint answered (xs : list (Request * Outcome Response)) : list Response :=
  match xs with
  | [] => []
  | (_, out) :: xs' =>
      match xs' with
      | [] => []
      | _ :: _ =>
          match out with
          | Ok response => response :: answered xs'
          | Raise _ => answered xs'
          end
      end
  end.

(** The responses received: those of the exchanges that did not raise. *)
Fixpoint responses (xs : list (Request * Outcome Response)) : list Response :=
  match xs with
  | [] => []
  | (_, Ok response) :: xs' => response :: responses xs'
  | (_, Raise _) :: xs' => responses xs'
  end.

(** The roles of a history of [k] answered tool requests: the query, then
    an assistant turn and a user turn for each. *)
Fixpoint alternating (k : nat) : list string :=
  match k with
  | O => ["user"]
  | S k' => alternating k' ++ ["assistant"; "user"]
  end.

(** * Properties *)

Section Facts.

Context {World : Type}.
Implicit Types (w : World) (self : AIGenerator World)
  (tm : ToolExecutor World) (tr : list Event).

(** ** Traces *)

Lemma exchanges_app tr1 tr2 :
  exchanges (tr1 ++ tr2) = exchanges tr1 ++ exchanges tr2.
Proof.
  induction tr1 as [|[req out|name input out] tr1 IH]; simpl; auto.
  now rewrite IH.
Qed.

Lemma requests_exchanges tr : requests tr = fst <$> exchanges tr.
Proof.
  induction tr as [|[req out|name input out] tr IH]; simpl; auto.
  now rewrite IH.
Qed.

(** ** Sequencing *)

Lemma bind_Ok {A B : Type} (m : M World A) (k : A -> M World B) w a :
  result (m w) = Ok a ->
  bind m k w =
    mkRun (result (k a (world (m w))))
          (trace (m w) ++ trace (k a (world (m w))))
          (world (k a (world (m w)))).
Proof. intros H. unfold bind. now rewrite H. Qed.

Lemma bind_Raise {A B : Type} (m : M World A) (k : A -> M World B) w e :
  result (m w) = Raise e ->
  bind m k w = mkRun (Raise e) (trace (m w)) (world (m w)).
Proof. intros H. unfold bind. now rewrite H. Qed.

Lemma call_create_run (c : Client World) req w :
  call_create c req w =
    mkRun (messages_create c req w).1
          [EvCreate req (messages_create c req w).1]
          (messages_create c req w).2.
Proof. unfold call_create. now destruct (messages_create c req w). Qed.

Lemma call_execute_tool_run tm name input w :
  call_execute_tool tm name input w =
    mkRun (execute_tool tm name input w).1
          [EvTool name input (execute_tool tm name input w).1]
          (execute_tool tm name input w).2.
Proof.
  unfold call_execute_tool. now destruct (execute_tool tm name input w).
Qed.

(** ** The loop over the content blocks *)

Ltac step_tool tm name input w :=
  unfold bind; rewrite (call_execute_tool_run tm name input w); simpl;
  destruct (execute_tool tm name input w) as [[out|e] w']; simpl.

Lemma execute_tools_exchanges tm blocks acc w :
  exchanges (trace (execute_tools tm blocks acc w)) = [].
Proof.
  revert acc w.
  induction blocks as [|[text|id name input|th] blocks IH]; intros acc w;
    simpl; auto.
  step_tool tm name input w; auto.
Qed.

Lemma execute_tools_Ok tm blocks acc w results :
  result (execute_tools tm blocks acc w) = Ok results ->
  exists new, results = acc ++ new /\ answers blocks new.
Proof.
  revert acc w.
  induction blocks as [|[text|id name input|th] blocks IH]; intros acc w;
    simpl.
  - intros [= <-]. exists []. rewrite app_nil_r. repeat split; constructor.
  - apply IH.
  - step_tool tm name input w; [|discriminate].
    intros H. apply IH in H as (new & -> & Hids & Htag).
    exists (mkToolResult "tool_result" id out :: new). split.
    + now rewrite <- app_assoc.
    + split; [rewrite fmap_cons; simpl; now f_equal | now constructor].
  - apply IH.
Qed.

Lemma block_type_tool_use (b : ContentBlock) :
  block_type b = "tool_use" <->
  exists id name input, b = ToolUseBlock id name input.
Proof.
  destruct b as [text|id name input|th]; simpl; split;
    try discriminate; eauto.
  - now intros (? & ? & ? & [=]).
  - now intros (? & ? & ? & [=]).
Qed.

(** The content of each result is the string its execution returned. *)
Lemma execute_tools_contents tm blocks acc w results :
  result (execute_tools tm blocks acc w) = Ok results ->
  tr_content <$> results =
    (tr_content <$> acc) ++ tool_outputs (trace (execute_tools tm blocks acc w)).
Proof.
  revert acc w.
  induction blocks as [|[text|id name input|th] blocks IH]; intros acc w;
    simpl; auto.
  - intros [= <-]. now rewrite app_nil_r.
  - step_tool tm name input w; [|discriminate].
    intros H. rewrite (IH _ _ H), fmap_app, <- app_assoc. reflexivity.
Qed.

(** The executions are exactly the calls the tool_use blocks ask for. *)
Lemma execute_tools_calls tm blocks acc w results :
  result (execute_tools tm blocks acc w) = Ok results ->
  tool_calls (trace (execute_tools tm blocks acc w)) = tool_use_calls blocks.
Proof.
  revert acc w.
  induction blocks as [|[text|id name input|th] blocks IH]; intros acc w;
    simpl; auto.
  step_tool tm name input w; [|discriminate].
  intros H. now rewrite (IH _ _ H).
Qed.

(** ** Propagation of exceptions *)

Lemma quiet_app tr1 tr2 : quiet tr1 -> quiet tr2 -> quiet (tr1 ++ tr2).
Proof. apply Forall_app_2. Qed.

Lemma propagating_Ok {A : Type} (r : Run World A) a :
  propagating r -> result r = Ok a -> quiet (trace r).
Proof.
  intros [Hq|(pre & ev & e & _ & _ & _ & Hres)] Ha; [assumption|].
  congruence.
Qed.

Lemma propagating_ret {A : Type} (a : A) w : propagating (ret a w).
Proof. left. constructor. Qed.

Lemma propagating_raise {A : Type} (e : exn) w :
  propagating (raise (A:=A) e w).
Proof. left. constructor. Qed.

Lemma propagating_call_create (c : Client World) req w :
  propagating (call_create c req w).
Proof.
  rewrite call_create_run.
  destruct (messages_create c req w) as [[resp|e] w']; simpl.
  - left. repeat constructor.
  - right. exists [], (EvCreate req (Raise e)), e.
    repeat split; constructor.
Qed.

Lemma propagating_call_execute_tool tm name input w :
  propagating (call_execute_tool tm name input w).
Proof.
  rewrite call_execute_tool_run.
  destruct (execute_tool tm name input w) as [[out|e] w']; simpl.
  - left. repeat constructor.
  - right. exists [], (EvTool name input (Raise e)), e.
    repeat split; constructor.
Qed.

Lemma propagating_bind {A B : Type} (m : M World A) (k : A -> M World B) w :
  propagating (m w) ->
  (forall a, result (m w) = Ok a -> propagating (k a (world (m w)))) ->
  propagating (bind m k w).
Proof.
  intros Hm Hk. destruct (result (m w)) as [a|e] eqn:Hres.
  - rewrite (bind_Ok _ _ _ _ Hres).
    pose proof (propagating_Ok _ _ Hm Hres) as Hq.
    destruct (Hk a eq_refl) as [Hq'|(pre & ev & e & Htr & Hpre & Hev & Hr)].
    + left. simpl. now apply quiet_app.
    + right. exists (trace (m w) ++ pre), ev, e. simpl.
      rewrite Htr, app_assoc. repeat split; auto using quiet_app.
  - rewrite (bind_Raise _ _ _ _ Hres).
    destruct Hm as [Hq|(pre & ev & e' & Htr & Hpre & Hev & Hr)].
    + now left.
    + right. exists pre, ev, e'. simpl. repeat split; auto. congruence.
Qed.

Lemma execute_tools_propagating tm blocks acc w :
  propagating (execute_tools tm blocks acc w).
Proof.
  revert acc w.
  induction blocks as [|[text|id name input|th] blocks IH]; intros acc w;
    simpl; auto using propagating_ret.
  apply propagating_bind; auto using propagating_call_execute_tool.
Qed.

(** ** The requests the driver builds *)

Lemma next_params_messages self base msgs :
  messages (next_params_of self base msgs) = msgs.
Proof. unfold next_params_of. now destruct (tools base). Qed.

Lemma next_params_system self base msgs :
  system (next_params_of self base msgs) = system base.
Proof. unfold next_params_of. now destruct (tools base). Qed.

Lemma next_params_tools self base msgs :
  tools (next_params_of self base msgs) = tools base.
Proof. unfold next_params_of. now destruct (tools base). Qed.

Lemma next_params_tool_choice self base msgs :
  tool_choice (next_params_of self base msgs) =
    match tools base with
    | Some _ => Some (mkToolChoice "auto")
    | None => None
    end.
Proof. unfold next_params_of. now destruct (tools base). Qed.

Lemma next_params_fixed self base msgs :
  model (next_params_of self base msgs) = self_model self /\
  temperature (next_params_of self base msgs) = 0%Z /\
  max_tokens (next_params_of self base msgs) = 800%Z.
Proof. unfold next_params_of. now destruct (tools base). Qed.

Lemma api_params_fixed self query history ts :
  model (api_params_of self query history ts) = self_model self /\
  temperature (api_params_of self query history ts) = 0%Z /\
  max_tokens (api_params_of self query history ts) = 800%Z.
Proof. unfold api_params_of. now destruct ts as [[|]|]. Qed.

Lemma api_params_messages self query history ts :
  messages (api_params_of self query history ts) =
    [mkMessage "user" (TextContent query)].
Proof. unfold api_params_of. now destruct ts as [[|]|]. Qed.

Lemma api_params_system self query history ts :
  system (api_params_of self query history ts) = system_content_of history.
Proof. unfold api_params_of. now destruct ts as [[|]|]. Qed.

Lemma api_params_tool_choice self query history ts :
  tool_choice (api_params_of self query history ts) =
    match tools (api_params_of self query history ts) with
    | Some _ => Some (mkToolChoice "auto")
    | None => None
    end.
Proof. unfold api_params_of. now destruct ts as [[|]|]. Qed.

(** ** The bounded loop *)

Lemma tool_loop_chain self base tm n msgs cur w :
  chain self base n msgs cur
        (exchanges (trace (tool_loop self base tm n msgs cur w))).
Proof.
  revert msgs cur w. induction n as [|n IH]; intros msgs cur w; simpl.
  - exact I.
  - destruct (result (execute_tools tm (resp_content cur) [] w))
      as [results|e] eqn:Hres.
    + rewrite (bind_Ok _ _ _ _ Hres). simpl.
      rewrite exchanges_app, execute_tools_exchanges. simpl.
      apply execute_tools_Ok in Hres as (new & -> & Hnew). simpl.
      unfold bind. rewrite call_create_run. simpl.
      destruct (messages_create _ _ _) as [[next|e] w']; simpl.
      * split; [exists new; now split|].
        rewrite next_params_messages.
        destruct (stop_reason next =? "tool_use"); simpl; auto.
      * split; [exists new; now split|reflexivity].
    + rewrite (bind_Raise _ _ _ _ Hres). simpl.
      now rewrite execute_tools_exchanges.
Qed.

Lemma tool_loop_propagating self base tm n msgs cur w :
  propagating (tool_loop self base tm n msgs cur w).
Proof.
  revert msgs cur w. induction n as [|n IH]; intros msgs cur w; simpl.
  - apply propagating_ret.
  - apply propagating_bind; [apply execute_tools_propagating|].
    intros results _.
    apply propagating_bind; [apply propagating_call_create|].
    intros next _.
    destruct (stop_reason next =? "tool_use"); auto using propagating_ret.
Qed.

(** The loop yields the last response it received, or the response it was
    started with when it issued no request. *)
Lemma tool_loop_final self base tm n msgs cur w final :
  result (tool_loop self base tm n msgs cur w) = Ok final ->
  match last (exchanges (trace (tool_loop self base tm n msgs cur w))) with
  | Some (_, out) => out = Ok final
  | None => final = cur
  end.
Proof.
  revert msgs cur w. induction n as [|n IH]; intros msgs cur w; simpl.
  - now intros [= <-].
  - destruct (result (execute_tools tm (resp_content cur) [] w))
      as [results|e] eqn:Hres.
    2:{ rewrite (bind_Raise _ _ _ _ Hres). discriminate. }
    rewrite (bind_Ok _ _ _ _ Hres). simpl.
    rewrite exchanges_app, execute_tools_exchanges. simpl.
    unfold bind. rewrite call_create_run. simpl.
    destruct (messages_create _ _ _) as [[next|e] w']; simpl;
      [|discriminate].
    destruct (stop_reason next =? "tool_use"); simpl.
    + intros H. apply IH in H. rewrite last_cons.
      destruct (last _) as [[? ?]|]; [assumption|now subst].
    + now intros [= <-].
Qed.

(** ** What a chain of exchanges entails *)

Lemma chain_length self base n msgs cur xs :
  chain self base n msgs cur xs -> length xs <= n.
Proof.
  revert n msgs cur.
  induction xs as [|[req out] xs IH]; intros n msgs cur; simpl; [lia|].
  destruct n as [|n]; [intros []|]. intros [_ Hrest].
  destruct out as [next|e].
  - destruct (stop_reason next =? "tool_use").
    + apply IH in Hrest. lia.
    + subst xs. simpl. lia.
  - subst xs. simpl. lia.
Qed.

Lemma chain_requests self base n msgs cur xs :
  chain self base n msgs cur xs ->
  Forall (fun x => exists msgs', x.1 = next_params_of self base msgs') xs.
Proof.
  revert n msgs cur.
  induction xs as [|[req out] xs IH]; intros n msgs cur; simpl;
    [constructor|].
  destruct n as [|n]; [intros []|]. intros [(results & _ & ->) Hrest].
  constructor; [now eexists|].
  destruct out as [next|e].
  - destruct (stop_reason next =? "tool_use"); [eauto|subst; constructor].
  - subst. constructor.
Qed.

Lemma chain_adjacent self base n msgs cur xs r0 i r1 resp1 r2 o2 :
  chain self base n msgs cur xs ->
  messages r0 = msgs ->
  ((r0, Ok cur) :: xs) !! i = Some (r1, Ok resp1) ->
  ((r0, Ok cur) :: xs) !! S i = Some (r2, o2) ->
  exists results,
    answers (resp_content resp1) results /\
    r2 = next_params_of self base
           (add_tool_results (messages r1 ++ [assistant_turn resp1]) results).
Proof.
  revert n msgs cur r0 i.
  induction xs as [|[req out] xs IH]; intros n msgs cur r0 i Hchain Hmsgs.
  - now destruct i.
  - simpl in Hchain. destruct n as [|n]; [destruct Hchain|].
    destruct Hchain as [Hreq Hrest]. destruct i as [|i]; simpl.
    + intros [= <- <-] [= <- <-]. now rewrite Hmsgs.
    + destruct out as [next|e].
      * destruct (stop_reason next =? "tool_use").
        -- intros H1 H2. eapply (IH _ _ _ req i); eauto.
        -- subst xs. now destruct i.
      * subst xs. now destruct i.
Qed.

(** ** The whole query *)

Lemma _handle_tool_execution_exchanges self r0 base tm n w :
  exchanges (trace (_handle_tool_execution self r0 base tm n w)) =
  exchanges (trace (tool_loop self base tm n (messages base) r0 w)).
Proof.
  unfold _handle_tool_execution, bind.
  destruct (result (tool_loop _ _ _ _ _ _ _)); simpl; [|reflexivity].
  now rewrite app_nil_r.
Qed.

Lemma first_block_text_trace response w :
  trace (first_block_text response w) = [].
Proof.
  unfold first_block_text.
  destruct (resp_content response) as [|b bs]; [reflexivity|].
  now destruct (block_text b).
Qed.

Lemma generate_response_exchanges self query history ts tmo w :
  let api := api_params_of self query history ts in
  let out := (messages_create (client self) api w).1 in
  exists xs,
    exchanges (trace (generate_response self query history ts tmo w)) =
      (api, out) :: xs /\
    match out with
    | Ok r0 => chain self api 3 (messages api) r0 xs
    | Raise _ => xs = []
    end.
Proof.
  intros api out. unfold generate_response, bind.
  generalize 3. intros n.
  rewrite call_create_run. fold api. fold out. simpl.
  destruct out as [r0|e]; simpl; [|now exists []].
  destruct tmo as [tm|].
  - destruct (stop_reason r0 =? "tool_use").
    + rewrite _handle_tool_execution_exchanges.
      eexists; split; [reflexivity|]. apply tool_loop_chain.
    + rewrite first_block_text_trace. now exists [].
  - rewrite first_block_text_trace. now exists [].
Qed.

Lemma generate_response_propagating self query history ts tmo w :
  propagating (generate_response self query history ts tmo w).
Proof.
  unfold generate_response.
  apply propagating_bind; [apply propagating_call_create|].
  intros r0 _.
  assert (Hdirect : forall w', propagating (first_block_text r0 w')).
  { intros w'. left. rewrite first_block_text_trace. constructor. }
  destruct tmo as [tm|]; [|apply Hdirect].
  destruct (stop_reason r0 =? "tool_use"); [|apply Hdirect].
  unfold _handle_tool_execution.
  apply propagating_bind; [apply tool_loop_propagating|].
  intros; apply propagating_ret.
Qed.

(** The requests of a query: the initial one, then at most three
    follow-ups, each built by the loop from the initial one. *)
Lemma generate_response_requests self query history ts tmo w :
  let api := api_params_of self query history ts in
  exists followups,
    requests (trace (generate_response self query history ts tmo w)) =
      api :: followups /\
    length followups <= 3 /\
    Forall (fun req => exists msgs, req = next_params_of self api msgs)
           followups.
Proof.
  intros api.
  destruct (generate_response_exchanges self query history ts tmo w)
    as (xs & Hxs & Hout).
  fold api in Hxs, Hout. rewrite requests_exchanges, Hxs.
  exists (fst <$> xs). split; [reflexivity|].
  destruct (messages_create (client self) api w).1 as [r0|e].
  - split.
    + rewrite length_fmap. eapply chain_length, Hout.
    + apply Forall_fmap. eapply chain_requests, Hout.
  - subst xs. split; [simpl; lia|constructor].
Qed.

Lemma propagating_spec {A : Type} (r : Run World A) pre ev post e :
  propagating r ->
  trace r = pre ++ ev :: post ->
  raised ev = Some e ->
  post = [] /\ result r = Raise e.
Proof.
  intros [Hq|(pre' & ev' & e' & Htr & Hpre & Hev & Hres)] Hsplit Hraised.
  - unfold quiet in Hq. rewrite Hsplit in Hq.
    apply Forall_app in Hq as [_ Hq]. inversion Hq; congruence.
  - rewrite Hsplit in Htr.
    destruct post as [|x post _] using rev_ind.
    + apply app_inj_tail in Htr as [_ ->]. split; congruence.
    + change (pre ++ ev :: post ++ [x]) with (pre ++ (ev :: post) ++ [x])
        in Htr.
      rewrite app_assoc in Htr. apply app_inj_tail in Htr as [<- _].
      apply Forall_app in Hpre as [_ Hpre]. inversion Hpre; congruence.
Qed.

(** ** The system content *)

Lemma append_assoc (a b c : string) : (a +:+ b) +:+ c = a +:+ (b +:+ c).
Proof.
  induction a as [|x a IH]; [reflexivity|]. exact (f_equal (String x) IH).
Qed.

Lemma append_empty_r (a : string) : a +:+ EmptyString = a.
Proof.
  induction a as [|x a IH]; [reflexivity|]. exact (f_equal (String x) IH).
Qed.

Lemma system_content_contains (h : string) :
  contains h (system_content_of (Some h)).
Proof.
  destruct h as [|c h]; unfold system_content_of, str_truthy.
  - exists EmptyString, SYSTEM_PROMPT. reflexivity.
  - exists (SYSTEM_PROMPT +:+ nl +:+ nl +:+ "Previous conversation:" +:+ nl),
           EmptyString.
    rewrite append_empty_r, !append_assoc. reflexivity.
Qed.

(** ** The text a query returns *)

Lemma execute_tools_total tm blocks acc w :
  quiet (trace (execute_tools tm blocks acc w)) ->
  exists results, result (execute_tools tm blocks acc w) = Ok results.
Proof.
  revert acc w.
  induction blocks as [|[text|id name input|th] blocks IH]; intros acc w;
    simpl; eauto.
  step_tool tm name input w.
  - intros Hq. apply IH. now inversion Hq.
  - intros Hq. inversion Hq as [|? ? Hev _]. discriminate Hev.
Qed.

(** The loop raises nothing of its own: when no call raises it yields a
    response. *)
Lemma tool_loop_total self base tm n msgs cur w :
  quiet (trace (tool_loop self base tm n msgs cur w)) ->
  exists final, result (tool_loop self base tm n msgs cur w) = Ok final.
Proof.
  revert msgs cur w. induction n as [|n IH]; intros msgs cur w; simpl;
    [eauto|].
  destruct (result (execute_tools tm (resp_content cur) [] w))
    as [results|e] eqn:Hres.
  - rewrite (bind_Ok _ _ _ _ Hres). simpl.
    unfold bind. rewrite call_create_run. simpl.
    destruct (messages_create _ _ _) as [[next|e] w']; simpl.
    + destruct (stop_reason next =? "tool_use"); simpl; [|eauto].
      intros Hq. apply IH.
      apply Forall_app in Hq as [_ Hq]. now inversion Hq.
    + intros Hq. apply Forall_app in Hq as [_ Hq].
      inversion Hq as [|? ? Hev _]. discriminate Hev.
  - rewrite (bind_Raise _ _ _ _ Hres). simpl. intros Hq.
    apply execute_tools_total in Hq as [results Hq]. congruence.
Qed.

(** On the tool path the query returns the text extracted from the last
    response received, whenever no call raises. *)
Lemma tool_path_text self query history ts tm w r0 :
  let run := generate_response self query history ts (Some tm) w in
  (messages_create (client self) (api_params_of self query history ts) w).1
    = Ok r0 ->
  stop_reason r0 = "tool_use" ->
  quiet (trace run) ->
  exists req final,
    last (exchanges (trace run)) = Some (req, Ok final) /\
    result run = Ok (extract_text final).
Proof.
  intros run Hout Hstop. subst run. unfold generate_response, bind.
  generalize 3. intros n.
  rewrite call_create_run, Hout. simpl.
  apply String.eqb_eq in Hstop. rewrite Hstop.
  unfold _handle_tool_execution, bind.
  intros Hq.
  destruct (tool_loop_total self (api_params_of self query history ts) tm n
              (messages (api_params_of self query history ts)) r0
              (messages_create (client self)
                 (api_params_of self query history ts) w).2)
    as [final Hfinal].
  { inversion Hq as [|? ? _ Hq']. revert Hq'.
    destruct (result (tool_loop _ _ _ _ _ _ _)); simpl; [|tauto].
    now rewrite app_nil_r. }
  rewrite Hfinal. simpl. rewrite app_nil_r.
  apply tool_loop_final in Hfinal. rewrite last_cons.
  destruct (last _) as [[req out]|].
  - subst out. now exists req, final.
  - subst final. now eexists _, r0.
Qed.

Lemma extract_text_empty response :
  resp_content response = [] -> extract_text response = NO_RESPONSE.
Proof. unfold extract_text. now intros ->. Qed.

Lemma extract_text_nonempty response :
  resp_content response <> [] ->
  extract_text response =
    default NO_TEXT_RESPONSE (first_text (resp_content response)).
Proof.
  unfold extract_text. destruct (resp_content response); [tauto|].
  intros _. now destruct (first_text _).
Qed.

(** [first_text] finds the text of the first block that has one. *)
Lemma first_text_Some blocks t :
  first_text blocks = Some t <->
  exists pre post,
    blocks = pre ++ TextBlock t :: post /\
    Forall (fun b => block_text b = None) pre.
Proof.
  split.
  - induction blocks as [|[text|id name input|th] blocks IH]; simpl;
      try discriminate.
    + intros [= <-]. exists [], blocks. split; [reflexivity|constructor].
    + intros H. destruct (IH H) as (pre & post & -> & Hpre).
      exists (ToolUseBlock id name input :: pre), post.
      split; [reflexivity|now constructor].
    + intros H. destruct (IH H) as (pre & post & -> & Hpre).
      exists (ThinkingBlock th :: pre), post.
      split; [reflexivity|now constructor].
  - intros (pre & post & -> & Hpre).
    induction Hpre as [|b pre Hb _ IH]; simpl; [reflexivity|].
    now rewrite Hb.
Qed.

Lemma first_text_None blocks :
  first_text blocks = None <-> Forall (fun b => block_text b = None) blocks.
Proof.
  induction blocks as [|b blocks IH]; simpl.
  - split; [constructor|reflexivity].
  - destruct (block_text b) eqn:Hb.
    + split; [discriminate|]. intros H. inversion H. congruence.
    + rewrite IH. split; [now constructor|]. intros H. now inversion H.
Qed.

Lemma NO_RESPONSE_wording :
  contains "unable to generate a response" NO_RESPONSE.
Proof.
  exists "I was ", ". Please try rephrasing your question.". reflexivity.
Qed.

(** ** Rounds *)

Lemma rounds_from_tools pending t tr :
  exchanges t = [] ->
  rounds_from pending (t ++ tr) = rounds_from (pending ++ t) tr.
Proof.
  revert pending.
  induction t as [|[req out|name input out] t IH]; intros pending; simpl.
  - now rewrite app_nil_r.
  - discriminate.
  - intros H. rewrite (IH _ H), <- app_assoc. reflexivity.
Qed.

Lemma rounds_from_no_request pending t :
  exchanges t = [] -> rounds_from pending t = [].
Proof.
  intros H. rewrite <- (app_nil_r t), (rounds_from_tools _ _ _ H).
  reflexivity.
Qed.

Lemma exchanges_rounds_from pending tr :
  exchanges tr = (fun x => (x.1.2, x.2)) <$> rounds_from pending tr.
Proof.
  revert pending.
  induction tr as [|[req out|name input out] tr IH]; intros pending; simpl;
    auto.
  now rewrite (IH []).
Qed.

(** The loop over the blocks, when it completes: nothing raised, the
    executions are those the tool_use blocks ask for, and the results pair
    the ids of the blocks with the strings returned. *)
Lemma execute_tools_spec tm blocks acc w results :
  result (execute_tools tm blocks acc w) = Ok results ->
  quiet (trace (execute_tools tm blocks acc w)) /\
  tool_calls (trace (execute_tools tm blocks acc w)) = tool_use_calls blocks /\
  results =
    acc ++ tool_results_of blocks
             (tool_outputs (trace (execute_tools tm blocks acc w))).
Proof.
  revert acc w.
  induction blocks as [|[text|id name input|th] blocks IH]; intros acc w;
    simpl; auto.
  - intros [= <-]. repeat split; [constructor|now rewrite app_nil_r].
  - step_tool tm name input w; [|discriminate].
    intros H. destruct (IH _ _ H) as (Hq & Hcalls & Hres).
    repeat split.
    + now constructor.
    + now rewrite Hcalls.
    + rewrite Hres at 1. now rewrite <- app_assoc.
Qed.

Lemma tool_loop_rounds self base tm n msgs cur w :
  chain_rounds self base n msgs cur
    (rounds (trace (tool_loop self base tm n msgs cur w))).
Proof.
  revert msgs cur w. induction n as [|n IH]; intros msgs cur w; simpl.
  - exact I.
  - destruct (result (execute_tools tm (resp_content cur) [] w))
      as [results|e] eqn:Hres.
    + rewrite (bind_Ok _ _ _ _ Hres). simpl. unfold rounds.
      rewrite rounds_from_tools by apply execute_tools_exchanges. simpl.
      apply execute_tools_spec in Hres as (Hq & Hcalls & ->). simpl.
      unfold bind. rewrite call_create_run. simpl.
      destruct (messages_create _ _ _) as [[next|e] w']; simpl.
      * split; [now repeat split|].
        rewrite next_params_messages.
        destruct (stop_reason next =? "tool_use"); simpl; auto.
      * split; [now repeat split|reflexivity].
    + rewrite (bind_Raise _ _ _ _ Hres). simpl. unfold rounds.
      now rewrite rounds_from_no_request by apply execute_tools_exchanges.
Qed.

(** The rounds of a query: the initial request, and the rounds of the loop
    when a manager is given and the first response stops for tool use. *)
Lemma generate_response_rounds self query history ts tmo w :
  let api := api_params_of self query history ts in
  let out := (messages_create (client self) api w).1 in
  exists rs,
    rounds (trace (generate_response self query history ts tmo w)) =
      ([], api, out) :: rs /\
    match out, tmo with
    | Ok r0, Some _ =>
        if stop_reason r0 =? "tool_use"
        then chain_rounds self api 3 (messages api) r0 rs
        else rs = []
    | _, _ => rs = []
    end.
Proof.
  intros api out. unfold generate_response, bind.
  generalize 3. intros n.
  rewrite call_create_run. fold api. fold out. unfold rounds. simpl.
  destruct out as [r0|e]; simpl; [|now exists []].
  destruct tmo as [tm|].
  - destruct (stop_reason r0 =? "tool_use").
    + eexists; split; [reflexivity|].
      unfold _handle_tool_execution, bind.
      destruct (result (tool_loop self api tm n (messages api) r0 _))
        eqn:Hloop; simpl; [rewrite app_nil_r|]; apply tool_loop_rounds.
    + rewrite first_block_text_trace. now exists [].
  - rewrite first_block_text_trace. now exists [].
Qed.

Lemma chain_rounds_adjacent self base n msgs cur rs p0 r0 i t1 r1 o1 t2 r2 o2 :
  chain_rounds self base n msgs cur rs ->
  messages r0 = msgs ->
  stop_reason cur = "tool_use" ->
  ((p0, r0, Ok cur) :: rs) !! i = Some (t1, r1, o1) ->
  ((p0, r0, Ok cur) :: rs) !! S i = Some (t2, r2, o2) ->
  exists resp1,
    o1 = Ok resp1 /\
    stop_reason resp1 = "tool_use" /\
    quiet t2 /\
    tool_calls t2 = tool_use_calls (resp_content resp1) /\
    r2 = follow_up self base (messages r1) resp1 t2.
Proof.
  revert n msgs cur p0 r0 i.
  induction rs as [|[[evs req] out] rs IH];
    intros n msgs cur p0 r0 i Hchain Hmsgs Hstop.
  - now destruct i.
  - simpl in Hchain. destruct n as [|n]; [destruct Hchain|].
    destruct Hchain as [(Hq & Hcalls & Hreq) Hrest].
    destruct i as [|i]; simpl.
    + intros [= <- <- <-] [= <- <- <-]. exists cur. now rewrite Hmsgs.
    + destruct out as [next|e].
      * destruct (stop_reason next =? "tool_use") eqn:Hnext.
        -- apply String.eqb_eq in Hnext.
           intros H1 H2. eapply (IH _ _ _ evs req i); eauto.
        -- subst rs. now destruct i.
      * subst rs. now destruct i.
Qed.

Lemma tool_calls_app tr1 tr2 :
  tool_calls (tr1 ++ tr2) = tool_calls tr1 ++ tool_calls tr2.
Proof.
  induction tr1 as [|[req out|name input out] tr1 IH]; simpl; auto.
  now rewrite IH.
Qed.

Lemma exchanges_lookup_rounds tr i r o :
  exchanges tr !! i = Some (r, o) ->
  exists t, rounds tr !! i = Some (t, r, o).
Proof.
  rewrite (exchanges_rounds_from [] tr), list_lookup_fmap.
  fold (rounds tr). destruct (rounds tr !! i) as [[[t r'] o']|]; simpl;
    [|discriminate].
  intros [= <- <-]. now exists t.
Qed.

Lemma rounds_lookup_exchanges tr i t r o :
  rounds tr !! i = Some (t, r, o) -> exchanges tr !! i = Some (r, o).
Proof.
  intros H. rewrite (exchanges_rounds_from [] tr), list_lookup_fmap.
  fold (rounds tr). now rewrite H.
Qed.

(** Two consecutive rounds of a query. *)
Lemma generate_response_adjacent self query history ts tmo w i
    t1 r1 o1 t2 r2 o2 :
  let rs := rounds (trace (generate_response self query history ts tmo w)) in
  rs !! i = Some (t1, r1, o1) ->
  rs !! S i = Some (t2, r2, o2) ->
  exists tm resp1,
    tmo = Some tm /\
    o1 = Ok resp1 /\
    stop_reason resp1 = "tool_use" /\
    quiet t2 /\
    tool_calls t2 = tool_use_calls (resp_content resp1) /\
    r2 = follow_up self (api_params_of self query history ts)
           (messages r1) resp1 t2.
Proof.
  intros rs H1 H2. subst rs.
  destruct (generate_response_rounds self query history ts tmo w)
    as (rs & Hrs & Hout).
  rewrite Hrs in H1, H2.
  destruct (messages_create _ _ _).1 as [r0|e];
    [|subst rs; now destruct i].
  destruct tmo as [tm|]; [|subst rs; now destruct i].
  destruct (stop_reason r0 =? "tool_use") eqn:Hstop;
    [|subst rs; now destruct i].
  apply String.eqb_eq in Hstop.
  destruct (chain_rounds_adjacent _ _ _ _ _ _ _ _ _ _ _ _ _ _ _
              Hout eq_refl Hstop H1 H2) as (resp1 & ? & ? & ? & ? & ?).
  now exists tm, resp1.
Qed.

(** ** When the loop ends *)

(** A loop that yields a response still asking for a tool has used up its
    iterations. *)
Lemma tool_loop_exhausts self base tm n msgs cur w final :
  result (tool_loop self base tm n msgs cur w) = Ok final ->
  stop_reason final = "tool_use" ->
  length (exchanges (trace (tool_loop self base tm n msgs cur w))) = n.
Proof.
  revert msgs cur w. induction n as [|n IH]; intros msgs cur w; simpl;
    [reflexivity|].
  destruct (result (execute_tools tm (resp_content cur) [] w))
    as [results|e] eqn:Hres.
  2:{ rewrite (bind_Raise _ _ _ _ Hres). discriminate. }
  rewrite (bind_Ok _ _ _ _ Hres). simpl.
  rewrite exchanges_app, execute_tools_exchanges. simpl.
  unfold bind. rewrite call_create_run. simpl.
  destruct (messages_create _ _ _) as [[next|e] w']; simpl; [|discriminate].
  destruct (stop_reason next =? "tool_use") eqn:Hnext; simpl.
  - intros H Hstop. now rewrite (IH _ _ _ H Hstop).
  - intros [= <-] Hstop. apply String.eqb_neq in Hnext. contradiction.
Qed.

(** The tools a completed loop executed are those asked for by the response
    it was started with and by every response but the last. *)
Lemma tool_loop_tool_calls self base tm n msgs cur w r_prev final :
  result (tool_loop self base tm n msgs cur w) = Ok final ->
  tool_calls (trace (tool_loop self base tm n msgs cur w)) =
    flat_map (fun r => tool_use_calls (resp_content r))
      (answered ((r_prev, Ok cur) ::
                 exchanges (trace (tool_loop self base tm n msgs cur w)))).
Proof.
  revert msgs cur w r_prev.
  induction n as [|n IH]; intros msgs cur w r_prev; simpl; [reflexivity|].
  destruct (result (execute_tools tm (resp_content cur) [] w))
    as [results|e] eqn:Hres.
  2:{ rewrite (bind_Raise _ _ _ _ Hres). discriminate. }
  rewrite (bind_Ok _ _ _ _ Hres). simpl.
  rewrite exchanges_app, execute_tools_exchanges, tool_calls_app. simpl.
  rewrite (execute_tools_calls _ _ _ _ _ Hres).
  unfold bind. rewrite call_create_run. simpl.
  destruct (messages_create _ _ _) as [[next|e] w']; simpl; [|discriminate].
  destruct (stop_reason next =? "tool_use"); simpl.
  - intros H. f_equal. apply (IH _ _ _ r_prev H).
  - intros _. now rewrite app_nil_r.
Qed.

(** ** What the loop reads of its base parameters *)

Lemma tool_loop_base_params self base base' tm n msgs cur w :
  system base = system base' ->
  tools base = tools base' ->
  tool_loop self base tm n msgs cur w = tool_loop self base' tm n msgs cur w.
Proof.
  intros Hsystem Htools.
  assert (Hnext : forall m,
             next_params_of self base m = next_params_of self base' m).
  { intros m. unfold next_params_of. now rewrite Hsystem, Htools. }
  revert msgs cur w. induction n as [|n IH]; intros msgs cur w; simpl;
    [reflexivity|].
  unfold bind.
  destruct (result (execute_tools tm (resp_content cur) [] w));
    [|reflexivity].
  rewrite Hnext.
  destruct (result (call_create _ _ _)) as [next|e]; [|reflexivity].
  destruct (stop_reason next =? "tool_use"); [|reflexivity].
  now rewrite IH.
Qed.

(** ** The message history along a query *)

Lemma tool_outputs_length t :
  quiet t -> length (tool_outputs t) = length (tool_calls t).
Proof.
  induction 1 as [|[req out|name input [out|e]] t Hev _ IH]; simpl; auto.
  discriminate Hev.
Qed.

Lemma tool_use_calls_length blocks :
  length (tool_use_calls blocks) = length (tool_use_ids blocks).
Proof.
  induction blocks as [|[text|id name input|th] blocks IH]; simpl; auto.
Qed.

Lemma tool_results_of_ids blocks t :
  quiet t ->
  tool_calls t = tool_use_calls blocks ->
  tool_use_id <$> tool_results_of blocks (tool_outputs t)
    = tool_use_ids blocks.
Proof.
  intros Hq Hcalls. unfold tool_results_of.
  assert (Hlen : length (tool_use_ids blocks) = length (tool_outputs t)).
  { now rewrite tool_outputs_length, Hcalls, tool_use_calls_length. }
  revert Hlen. generalize (tool_outputs t) as outs.
  induction (tool_use_ids blocks) as [|id ids IH]; intros [|out outs];
    simpl; try discriminate; auto.
  intros [= Hlen]. f_equal. now apply IH.
Qed.

(** From one exchange of a query to the next. *)
Lemma generate_response_next_messages self query history ts tmo w i
    r1 o1 r2 o2 :
  exchanges (trace (generate_response self query history ts tmo w)) !! i
    = Some (r1, o1) ->
  exchanges (trace (generate_response self query history ts tmo w)) !! S i
    = Some (r2, o2) ->
  exists resp1 results,
    o1 = Ok resp1 /\
    tool_use_id <$> results = tool_use_ids (resp_content resp1) /\
    messages r2 =
      add_tool_results (messages r1 ++ [assistant_turn resp1]) results.
Proof.
  intros H1 H2.
  apply exchanges_lookup_rounds in H1 as [t1 H1].
  apply exchanges_lookup_rounds in H2 as [t2 H2].
  destruct (generate_response_adjacent _ _ _ _ _ _ _ _ _ _ _ _ _ H1 H2)
    as (tm & resp1 & _ & -> & _ & Hq & Hcalls & ->).
  exists resp1,
    (tool_results_of (resp_content resp1) (tool_outputs t2)).
  split; [reflexivity|]. split; [now apply tool_results_of_ids|].
  unfold follow_up. apply next_params_messages.
Qed.

Lemma add_tool_results_extends msgs turn results :
  exists new,
    add_tool_results (msgs ++ [turn]) results = msgs ++ new /\
    1 <= length new <= 2.
Proof.
  destruct results as [|r results]; simpl.
  - exists [turn]. simpl. split; [reflexivity|lia].
  - exists [turn; user_turn (r :: results)]. rewrite <- app_assoc. simpl.
    split; [reflexivity|lia].
Qed.

(** The messages of a request are those of every earlier request, with one
    or two turns added per request in between. *)
Lemma generate_response_prefix self query history ts tmo w i j ri oi rj oj :
  exchanges (trace (generate_response self query history ts tmo w)) !! i
    = Some (ri, oi) ->
  exchanges (trace (generate_response self query history ts tmo w)) !! j
    = Some (rj, oj) ->
  i <= j ->
  exists later,
    messages rj = messages ri ++ later /\
    j - i <= length later <= 2 * (j - i).
Proof.
  intros Hi. revert rj oj.
  induction j as [|j IH]; intros rj oj Hj Hle.
  - assert (i = 0) as -> by lia. rewrite Hi in Hj. injection Hj as [= <- <-].
    exists []. rewrite app_nil_r. simpl. split; [reflexivity|lia].
  - destruct (decide (i = S j)) as [->|Hne].
    + rewrite Hi in Hj. injection Hj as [= <- <-].
      exists []. rewrite app_nil_r. simpl. split; [reflexivity|lia].
    + destruct (lookup_lt_is_Some_2
                  (exchanges
                     (trace (generate_response self query history ts tmo w)))
                  j) as [[r' o'] Hj'].
      { apply lookup_lt_Some in Hj. lia. }
      destruct (IH _ _ Hj') as (later & Hlater & Hlen); [lia|].
      destruct (generate_response_next_messages _ _ _ _ _ _ _ _ _ _ _ Hj' Hj)
        as (resp' & results & _ & _ & Hnext).
      destruct (add_tool_results_extends (messages r') (assistant_turn resp')
                  results) as (new & Hnew & Hnewlen).
      exists (later ++ new).
      rewrite Hnext, Hnew, Hlater, <- app_assoc, length_app.
      split; [reflexivity|lia].
Qed.

Lemma api_params_tools self query history ts :
  tools (api_params_of self query history ts) =
    if list_truthy ts then ts else None.
Proof. unfold api_params_of. now destruct ts as [[|]|]. Qed.

(** ** Tools are executed only when asked for *)

Lemma execute_tools_calls_prefix tm blocks acc w :
  tool_calls (trace (execute_tools tm blocks acc w))
    `prefix_of` tool_use_calls blocks.
Proof.
  revert acc w.
  induction blocks as [|[text|id name input|th] blocks IH]; intros acc w;
    simpl; auto using prefix_nil.
  step_tool tm name input w.
  - apply (prefix_app [(name, input)]), IH.
  - apply (prefix_app [(name, input)]), prefix_nil.
Qed.

Lemma tool_loop_calls_prefix self base tm n msgs cur w :
  tool_calls (trace (tool_loop self base tm n msgs cur w))
    `prefix_of`
  flat_map (fun r => tool_use_calls (resp_content r))
    (cur :: responses (exchanges (trace (tool_loop self base tm n msgs cur w)))).
Proof.
  revert msgs cur w. induction n as [|n IH]; intros msgs cur w; simpl.
  - apply prefix_nil.
  - destruct (result (execute_tools tm (resp_content cur) [] w))
      as [results|e] eqn:Hres.
    + rewrite (bind_Ok _ _ _ _ Hres). simpl.
      rewrite exchanges_app, execute_tools_exchanges, tool_calls_app. simpl.
      rewrite (execute_tools_calls _ _ _ _ _ Hres).
      apply prefix_app.
      unfold bind. rewrite call_create_run. simpl.
      destruct (messages_create _ _ _) as [[next|e] w']; simpl.
      * destruct (stop_reason next =? "tool_use"); simpl;
          [apply IH|apply prefix_nil].
      * apply prefix_nil.
    + rewrite (bind_Raise _ _ _ _ Hres). simpl.
      apply prefix_app_r, execute_tools_calls_prefix.
Qed.

Lemma tool_results_of_contents blocks t :
  quiet t ->
  tool_calls t = tool_use_calls blocks ->
  tr_content <$> tool_results_of blocks (tool_outputs t) = tool_outputs t.
Proof.
  intros Hq Hcalls. unfold tool_results_of.
  assert (Hlen : length (tool_use_ids blocks) = length (tool_outputs t)).
  { now rewrite tool_outputs_length, Hcalls, tool_use_calls_length. }
  revert Hlen. generalize (tool_outputs t) as outs.
  induction (tool_use_ids blocks) as [|id ids IH]; intros [|out outs];
    simpl; try discriminate; auto.
  intros [= Hlen]. f_equal. now apply IH.
Qed.

Lemma tool_results_of_tagged blocks outs :
  Forall (fun r => tr_type r = "tool_result") (tool_results_of blocks outs).
Proof.
  unfold tool_results_of. revert outs.
  induction (tool_use_ids blocks) as [|id ids IH]; intros [|out outs];
    simpl; constructor; auto.
Qed.

Lemma add_tool_results_turns msgs response results :
  add_tool_results (msgs ++ [assistant_turn response]) results =
    msgs ++ assistant_turn response ::
      match results with
      | [] => []
      | _ :: _ => [user_turn results]
      end.
Proof.
  destruct results as [|r results]; simpl; [reflexivity|].
  now rewrite <- app_assoc.
Qed.

End Facts.

(** * Properties of a query *)

(** ** Number of requests *)

(** C1. A query issues the initial request and then at most three follow-up
    requests from the tool-execution loop: at most 1 + 3 model requests in
    all, whatever the model, the tools and the arguments are. *)
Theorem request_bound {World : Type} (self : AIGenerator World)
    (query : string) (history : option string) (ts : option (list json))
    (tmo : option (ToolExecutor World)) (w : World) :
  let run := generate_response self query history ts tmo w in
  (exists followups,
      requests (trace run) = api_params_of self query history ts :: followups /\
      length followups <= 3) /\
  length (requests (trace run)) <= 1 + 3.
Proof.
  intros run.
  destruct (generate_response_requests self query history ts tmo w)
    as (followups & Hreq & Hlen & _).
  fold run in Hreq. split.
  - now exists followups.
  - rewrite Hreq. simpl. lia.
Qed.

(** The bound is reached when the model keeps asking for tools. *)
Example request_bound_reached :
  length (requests (trace
    (generate_response scripted_generator "What is Python?" None
       (Some sample_tools) (Some (constant_tools "Search results"))
       [Ok tool_use_response; Ok tool_use_response; Ok tool_use_response;
        Ok tool_use_response; Ok tool_use_response; Ok final_response]))) = 4.
Proof. reflexivity. Qed.

(** ** Invocation parameters *)

(** C9. Every request of a query, the initial one and every follow-up,
    carries the model of the generator, temperature 0 and max_tokens 800, and
    its tool_choice is "auto" exactly when tool schemas are attached. *)
Theorem fixed_invocation_parameters {World : Type} (self : AIGenerator World)
    (query : string) (history : option string) (ts : option (list json))
    (tmo : option (ToolExecutor World)) (w : World) :
  Forall (fun req =>
            model req = self_model self /\
            temperature req = 0%Z /\
            max_tokens req = 800%Z /\
            tool_choice req =
              match tools req with
              | Some _ => Some (mkToolChoice "auto")
              | None => None
              end)
         (requests (trace (generate_response self query history ts tmo w))).
Proof.
  destruct (generate_response_requests self query history ts tmo w)
    as (followups & -> & _ & Hfollow).
  constructor.
  - pose proof (api_params_fixed self query history ts) as (? & ? & ?).
    repeat split; auto. apply api_params_tool_choice.
  - eapply Forall_impl; [exact Hfollow|].
    intros req (msgs & ->). simpl.
    pose proof (next_params_fixed self
                  (api_params_of self query history ts) msgs) as (? & ? & ?).
    repeat split; auto.
    now rewrite next_params_tool_choice, next_params_tools.
Qed.

(** ** System content *)

(** C5. A supplied history string occurs verbatim in the system content of
    every request of the query; without a history the system content of
    every request is SYSTEM_PROMPT itself. The query issues at least one
    request. *)
Theorem history_in_system_content {World : Type} (self : AIGenerator World)
    (query : string) (history : option string) (ts : option (list json))
    (tmo : option (ToolExecutor World)) (w : World) :
  let reqs := requests (trace (generate_response self query history ts tmo w)) in
  reqs <> [] /\
  Forall (fun req =>
            match history with
            | Some h => contains h (system req)
            | None => system req = SYSTEM_PROMPT
            end) reqs.
Proof.
  intros reqs. subst reqs.
  destruct (generate_response_requests self query history ts tmo w)
    as (followups & -> & _ & Hfollow).
  split; [discriminate|].
  assert (Hsys : match history with
                 | Some h => contains h (system_content_of history)
                 | None => system_content_of history = SYSTEM_PROMPT
                 end).
  { destruct history as [h|]; [apply system_content_contains|reflexivity]. }
  constructor.
  - now rewrite api_params_system.
  - eapply Forall_impl; [exact Hfollow|].
    intros req (msgs & ->). simpl.
    now rewrite next_params_system, api_params_system.
Qed.

(** A non-empty history is appended after the fixed template and the
    "Previous conversation" header, and nothing follows it. *)
Lemma system_content_with_history (c : ascii) (h : string) :
  system_content_of (Some (String c h)) =
    SYSTEM_PROMPT +:+ nl +:+ nl +:+ "Previous conversation:" +:+ nl +:+
    String c h.
Proof. reflexivity. Qed.

(** ** Follow-up requests *)

(** C7. Every follow-up request of the loop has the system content, the tool
    schemas and the tool_choice of the initial request, tool_choice being
    "auto" whenever schemas are attached. Its messages are the whole history
    so far: the messages of the request before it, then the response to that
    request as an assistant turn, then, unless the response held no tool_use
    block, one user turn with the results of the tools executed in between.
    Those tools are the ones the tool_use blocks of the response name, and
    the results carry the ids of the blocks and the strings the executions
    returned. *)
Theorem followups_keep_tools {World : Type} (self : AIGenerator World)
    (query : string) (history : option string) (ts : option (list json))
    (tmo : option (ToolExecutor World)) (w : World) :
  let api := api_params_of self query history ts in
  let xs := exchanges (trace (generate_response self query history ts tmo w)) in
  let rs := rounds (trace (generate_response self query history ts tmo w)) in
  (exists out followups,
      xs = (api, out) :: followups /\
      Forall (fun x =>
                system x.1 = system api /\
                tools x.1 = tools api /\
                tool_choice x.1 = tool_choice api) followups) /\
  (forall schemas,
      tools api = Some schemas -> tool_choice api = Some (mkToolChoice "auto")) /\
  xs = (fun x => (x.1.2, x.2)) <$> rs /\
  (forall i t1 r1 resp1 t2 r2 o2,
      rs !! i = Some (t1, r1, Ok resp1) ->
      rs !! S i = Some (t2, r2, o2) ->
      exists results,
        tool_calls t2 = tool_use_calls (resp_content resp1) /\
        tool_use_id <$> results = tool_use_ids (resp_content resp1) /\
        tr_content <$> results = tool_outputs t2 /\
        Forall (fun r => tr_type r = "tool_result") results /\
        messages r2 =
          messages r1 ++ assistant_turn resp1 ::
            match results with
            | [] => []
            | _ :: _ => [user_turn results]
            end).
Proof.
  intros api xs rs.
  destruct (generate_response_exchanges self query history ts tmo w)
    as (followups & Hxs & Hout).
  fold api in Hxs, Hout. fold xs in Hxs.
  set (out := (messages_create (client self) api w).1) in *.
  split; [|split; [|split]].
  - exists out, followups. split; [assumption|].
    destruct out as [r0|e]; [|subst followups; constructor].
    eapply Forall_impl; [eapply chain_requests, Hout|].
    intros [req o] (msgs & Hreq). simpl in *. subst req.
    rewrite next_params_system, next_params_tools, next_params_tool_choice.
    repeat split. symmetry. apply api_params_tool_choice.
  - intros schemas Htools. unfold api in *.
    rewrite api_params_tool_choice. now rewrite Htools.
  - apply exchanges_rounds_from.
  - intros i t1 r1 resp1 t2 r2 o2 H1 H2.
    destruct (generate_response_adjacent _ _ _ _ _ _ _ _ _ _ _ _ _ H1 H2)
      as (tm & resp & _ & [= <-] & _ & Hq & Hcalls & ->).
    exists (tool_results_of (resp_content resp1) (tool_outputs t2)).
    split; [assumption|].
    split; [now apply tool_results_of_ids|].
    split; [now apply tool_results_of_contents|].
    split; [apply tool_results_of_tagged|].
    unfold follow_up. rewrite next_params_messages.
    apply add_tool_results_turns.
Qed.

(** tool, then tool, then answer: three requests, two tool executions, and
    the text of the third response is returned. *)
Example tool_chain_example :
  let run :=
    generate_response scripted_generator "What is Python?" None
      (Some sample_tools) (Some (constant_tools "Search results"))
      [Ok tool_use_response; Ok tool_use_response; Ok final_response] in
  length (requests (trace run)) = 3 /\
  length (tool_calls (trace run)) = 2 /\
  result run = Ok "Based on the search, Python is great.".
Proof. repeat split. Qed.

(** The second request of that run carries the query, the first response
    and one user turn whose result has the id of the tool_use block and the
    string the tool returned. *)
Lemma followups_keep_tools_witness :
  exists t2 r2 o2 results,
    rounds (trace
      (generate_response scripted_generator "What is Python?" None
         (Some sample_tools) (Some (constant_tools "Search results"))
         [Ok tool_use_response; Ok tool_use_response; Ok final_response]))
      !! 1 = Some (t2, r2, o2) /\
    tool_calls t2 =
      [("search_course_content", [("query", JStr "Python basics")])] /\
    tool_use_id <$> results = ["tool_123"] /\
    tr_content <$> results = ["Search results"] /\
    messages r2 =
      [mkMessage "user" (TextContent "What is Python?");
       assistant_turn tool_use_response] ++
      match results with
      | [] => []
      | _ :: _ => [user_turn results]
      end.
Proof.
  destruct (followups_keep_tools scripted_generator "What is Python?" None
              (Some sample_tools) (Some (constant_tools "Search results"))
              [Ok tool_use_response; Ok tool_use_response; Ok final_response])
    as (_ & _ & _ & Hacc).
  destruct (Hacc 0 _ _ tool_use_response _ _ _ eq_refl eq_refl)
    as (results & Hcalls & Hids & Hcontents & _ & Hmsgs).
  eexists _, _, _, results. split; [reflexivity|].
  split; [exact Hcalls|]. split; [exact Hids|]. split; [exact Hcontents|].
  exact Hmsgs.
Defined.

(** ** Tool results *)

(** C2, as the code has it. When a response the loop processes holds at
    least one tool_use block, the next request carries the earlier messages,
    then the response as one assistant turn, then one user turn whose
    tool_result blocks answer the tool_use blocks one for one, in order and
    by id. When the response holds no tool_use block, only the assistant
    turn is added and no user turn. *)
Theorem tool_results_answer_tool_uses {World : Type}
    (self : AIGenerator World) (query : string) (history : option string)
    (ts : option (list json)) (tmo : option (ToolExecutor World)) (w : World)
    (i : nat) (r1 r2 : Request) (resp1 : Response) (o2 : Outcome Response) :
  let xs := exchanges (trace (generate_response self query history ts tmo w)) in
  xs !! i = Some (r1, Ok resp1) ->
  xs !! S i = Some (r2, o2) ->
  (tool_use_ids (resp_content resp1) <> [] -> answered_turns r1 resp1 r2) /\
  (tool_use_ids (resp_content resp1) = [] ->
   messages r2 = messages r1 ++ [assistant_turn resp1]).
Proof.
  intros xs H1 H2. subst xs.
  destruct (generate_response_exchanges self query history ts tmo w)
    as (followups & Hxs & Hout).
  rewrite Hxs in H1, H2.
  destruct (messages_create _ _ _).1 as [r0|e];
    [|subst followups; now destruct i].
  destruct (chain_adjacent _ _ _ _ _ _ _ _ _ _ _ _ Hout eq_refl H1 H2)
    as (results & Hans & ->).
  rewrite next_params_messages. split; intros Hids.
  - exists results. split; [assumption|].
    rewrite next_params_messages. destruct results as [|r results].
    + destruct Hans as [Hans _]. now rewrite <- Hans in Hids.
    + simpl. now rewrite <- app_assoc.
  - destruct Hans as [Hans _]. rewrite Hids in Hans.
    apply fmap_nil_inv in Hans. now subst results.
Qed.

Lemma tool_results_answer_tool_uses_witness :
  exists r1 r2 o2,
    exchanges (trace
      (generate_response scripted_generator "What is Python?" None
         (Some sample_tools) (Some (constant_tools "Search results"))
         [Ok tool_use_response; Ok final_response]))
      !! 1 = Some (r2, o2) /\
    answered_turns r1 tool_use_response r2.
Proof.
  eexists _, _, _. split; [reflexivity|].
  refine (proj1 (tool_results_answer_tool_uses scripted_generator
                   "What is Python?" None (Some sample_tools)
                   (Some (constant_tools "Search results"))
                   [Ok tool_use_response; Ok final_response]
                   0 _ _ _ _ eq_refl eq_refl) _).
  discriminate.
Defined.

(** C2, as stated, fails for a response that stops with "tool_use" and holds
    no tool_use block: the follow-up request carries the query and the
    assistant turn only, and no user turn with zero results. *)
Lemma empty_tool_use_turn_not_answered :
  ~ every_response_answered
      (exchanges (trace
         (generate_response scripted_generator "What is Python?" None
            (Some sample_tools) (Some (constant_tools "Search results"))
            [Ok lookup_announcement; Ok final_response]))).
Proof.
  intros H.
  destruct (H 0 _ _ _ _ eq_refl eq_refl) as (results & _ & Hmsgs).
  vm_compute in Hmsgs. discriminate.
Qed.

(** ** Exceptions *)

(** C6. When a model request or a tool execution raises, that call is the
    last thing the query does and the query ends with that very exception:
    nothing is caught, retried or replaced by a fallback text. *)
Theorem exceptions_propagate {World : Type} (self : AIGenerator World)
    (query : string) (history : option string) (ts : option (list json))
    (tmo : option (ToolExecutor World)) (w : World)
    (pre post : list Event) (ev : Event) (e : exn) :
  let run := generate_response self query history ts tmo w in
  trace run = pre ++ ev :: post ->
  raised ev = Some e ->
  post = [] /\ result run = Raise e.
Proof.
  intros run. apply propagating_spec, generate_response_propagating.
Qed.

Lemma exceptions_propagate_witness :
  result (generate_response scripted_generator "test" None
            (Some sample_tools) (Some (failing_tools tool_failure))
            [Ok tool_use_response; Ok final_response]) = Raise tool_failure.
Proof.
  refine (proj2 (exceptions_propagate scripted_generator "test" None
                   (Some sample_tools) (Some (failing_tools tool_failure))
                   [Ok tool_use_response; Ok final_response]
                   [EvCreate (api_params_of scripted_generator "test" None
                                (Some sample_tools))
                             (Ok tool_use_response)]
                   []
                   (EvTool "search_course_content"
                           [("query", JStr "Python basics")]
                           (Raise tool_failure))
                   tool_failure _ _)); reflexivity.
Defined.

(** An exception of the model call itself, on the first request. *)
Example api_error_propagates :
  result (generate_response scripted_generator "test" None None None
            [Raise api_error]) = Raise api_error.
Proof. reflexivity. Qed.

(** ** Unknown tools *)

(** C8. Executing a name that is not registered returns the string
    "Tool '<name>' not found", whatever the keyword arguments are; nothing is
    raised and the world is left as it was. *)
Theorem unknown_tool_not_found {World : Type} (self : ToolManager.t World)
    (tool_name : string) (kw : kwargs) (w : World) :
  ToolManager.tools self !! tool_name = None ->
  exists s,
    ToolManager.execute_tool self tool_name kw w = (Ok s, w) /\
    contains ("Tool '" +:+ tool_name +:+ "' not found") s /\
    contains "not found" s.
Proof.
  intros Hnone. unfold ToolManager.execute_tool. rewrite Hnone.
  eexists. split; [reflexivity|]. split.
  - exists EmptyString, EmptyString. now rewrite append_empty_r.
  - exists ("Tool '" +:+ tool_name +:+ "' "), EmptyString.
    rewrite append_empty_r, !append_assoc. reflexivity.
Qed.

Lemma unknown_tool_not_found_witness :
  exists s,
    ToolManager.execute_tool sample_manager "missing" [("x", JNum 1)] []
      = (Ok s, []) /\
    contains "Tool 'missing' not found" s /\
    contains "not found" s.
Proof.
  apply (unknown_tool_not_found sample_manager "missing").
  reflexivity.
Defined.

(** A registered name is dispatched to its capability. *)
Example registered_tool_executes :
  ToolManager.execute_tool sample_manager "search_course_content"
    [("query", JStr "test")] []
  = (Ok "Search results: Python content found", []).
Proof. reflexivity. Qed.

(** After an unknown-tool dispatch the loop goes on: the string is handed to
    the model as the tool result and the next response is the answer. *)
Example unknown_tool_loop_continues :
  let run :=
    generate_response scripted_generator "What is Python?" None
      (Some sample_tools)
      (Some (ToolManager.as_executor ToolManager.empty))
      [Ok tool_use_response; Ok final_response] in
  result run = Ok "Based on the search, Python is great." /\
  (messages <$> requests (trace run)) !! 1 =
    Some [mkMessage "user" (TextContent "What is Python?");
          assistant_turn tool_use_response;
          user_turn [mkToolResult "tool_result" "tool_123"
                       "Tool 'search_course_content' not found"]].
Proof. split; reflexivity. Qed.

(** ** Queries without a tool manager *)

(** C10, as the code has it. Without a tool manager a query issues the
    initial request and no other and executes no tool, also when the response
    stops for tool use; when the first content block of the response has
    text, that text is returned. *)
Theorem no_manager_single_request {World : Type} (self : AIGenerator World)
    (query : string) (history : option string) (ts : option (list json))
    (w : World) :
  let api := api_params_of self query history ts in
  let run := generate_response self query history ts None w in
  requests (trace run) = [api] /\
  tool_calls (trace run) = [] /\
  forall response block rest t,
    (messages_create (client self) api w).1 = Ok response ->
    resp_content response = block :: rest ->
    block_text block = Some t ->
    result run = Ok t.
Proof.
  intros api run. subst run. unfold generate_response, bind.
  rewrite call_create_run. fold api. simpl.
  destruct (messages_create (client self) api w).1 as [r0|e]; simpl.
  - rewrite first_block_text_trace. repeat split.
    intros response block rest t [= <-] Hcontent Htext.
    unfold first_block_text. now rewrite Hcontent, Htext.
  - repeat split. discriminate.
Qed.

Lemma no_manager_single_request_witness :
  result (generate_response scripted_generator "What is Python?" None
            (Some sample_tools) None
            [Ok announced_tool_use; Ok final_response])
  = Ok "I will search the course.".
Proof.
  pose proof (no_manager_single_request scripted_generator "What is Python?"
                None (Some sample_tools)
                [Ok announced_tool_use; Ok final_response])
    as (_ & _ & Htext).
  exact (Htext announced_tool_use _ _ _ eq_refl eq_refl eq_refl).
Defined.

(** C10, as stated, fails for a response whose first block is the tool_use
    block: without a tool manager the query does not return the text of a
    first block, it ends with an AttributeError. *)
Lemma tool_use_first_returns_no_text :
  ~ returns_first_block_text
      (generate_response scripted_generator "What is Python?" None
         (Some sample_tools) None [Ok tool_use_response])
      tool_use_response.
Proof. intros (t & Hresult & _). vm_compute in Hresult. discriminate. Qed.

(** ** The direct path and the final text *)

(** C3, on the direct path. When the response to the initial request has no
    content blocks and the tool loop is not entered, the query ends with an
    IndexError: the fallback text is returned on the tool path only. *)
Theorem direct_path_empty_content_raises {World : Type}
    (self : AIGenerator World) (query : string) (history : option string)
    (ts : option (list json)) (tmo : option (ToolExecutor World)) (w : World)
    (response : Response) :
  (messages_create (client self) (api_params_of self query history ts) w).1
    = Ok response ->
  resp_content response = [] ->
  tmo = None \/ stop_reason response <> "tool_use" ->
  result (generate_response self query history ts tmo w) = Raise IndexError.
Proof.
  intros Hout Hcontent Hdirect. unfold generate_response, bind.
  rewrite call_create_run, Hout. simpl.
  assert (Hraise : forall w' : World,
             result (first_block_text response w') = Raise IndexError).
  { intros w'. unfold first_block_text. now rewrite Hcontent. }
  destruct tmo as [tm|]; [|apply Hraise].
  destruct Hdirect as [|Hstop]; [discriminate|].
  apply String.eqb_neq in Hstop. rewrite Hstop. apply Hraise.
Qed.

Lemma direct_path_empty_content_raises_witness :
  result (generate_response scripted_generator "Hello" None None None
            [Ok empty_response]) = Raise IndexError.
Proof.
  apply (direct_path_empty_content_raises scripted_generator "Hello" None
           None None [Ok empty_response] empty_response).
  - reflexivity.
  - reflexivity.
  - left. reflexivity.
Defined.

(** The tool path returns the fallback text for the same response. *)
Example tool_path_empty_content_fallback :
  result (generate_response scripted_generator "Hello" None
            (Some sample_tools) (Some (constant_tools "Search results"))
            [Ok tool_use_response; Ok empty_response]) = Ok NO_RESPONSE.
Proof. reflexivity. Qed.

(** C4, on the direct path. When the first content block of the response to
    the initial request has no text and the tool loop is not entered, the
    query ends with an AttributeError, whatever blocks follow: neither the
    text of a later block nor the second fallback text is returned. *)
Theorem direct_path_first_block_without_text_raises {World : Type}
    (self : AIGenerator World) (query : string) (history : option string)
    (ts : option (list json)) (tmo : option (ToolExecutor World)) (w : World)
    (response : Response) (block : ContentBlock) (rest : list ContentBlock) :
  (messages_create (client self) (api_params_of self query history ts) w).1
    = Ok response ->
  resp_content response = block :: rest ->
  block_text block = None ->
  tmo = None \/ stop_reason response <> "tool_use" ->
  result (generate_response self query history ts tmo w)
  = Raise (AttributeError block).
Proof.
  intros Hout Hcontent Htext Hdirect. unfold generate_response, bind.
  rewrite call_create_run, Hout. simpl.
  assert (Hraise : forall w' : World,
             result (first_block_text response w')
             = Raise (AttributeError block)).
  { intros w'. unfold first_block_text. now rewrite Hcontent, Htext. }
  destruct tmo as [tm|]; [|apply Hraise].
  destruct Hdirect as [|Hstop]; [discriminate|].
  apply String.eqb_neq in Hstop. rewrite Hstop. apply Hraise.
Qed.

Lemma direct_path_first_block_without_text_raises_witness :
  result (generate_response scripted_generator "What is Python?" None
            (Some sample_tools) None [Ok tool_use_response])
  = Raise (mkExn "AttributeError"
                 "'ToolUseBlock' object has no attribute 'text'").
Proof.
  apply (direct_path_first_block_without_text_raises scripted_generator
           "What is Python?" None (Some sample_tools) None
           [Ok tool_use_response] tool_use_response
           (ToolUseBlock "tool_123" "search_course_content"
                         [("query", JStr "Python basics")]) []).
  - reflexivity.
  - reflexivity.
  - reflexivity.
  - left. reflexivity.
Defined.

(** When the iteration cap is reached and the last response still asks for
    a tool, the tool path returns the second fallback text. *)
Example cap_reached_fallback :
  result (generate_response scripted_generator "What is Python?" None
            (Some sample_tools) (Some (constant_tools "Search results"))
            [Ok tool_use_response; Ok tool_use_response;
             Ok tool_use_response; Ok tool_use_response])
  = Ok NO_TEXT_RESPONSE.
Proof. reflexivity. Qed.

(** * Further properties of the driver *)

(** ** The iteration parameter *)

(** X1. [_handle_tool_execution] issues at most [max_iterations] requests,
    for every value of the parameter, every initial response and every base
    parameters; with 0 it issues none. *)
Theorem handle_tool_execution_bound {World : Type} (self : AIGenerator World)
    (initial_response : Response) (base : Request) (tm : ToolExecutor World)
    (max_iterations : nat) (w : World) :
  length (requests (trace
    (_handle_tool_execution self initial_response base tm max_iterations w)))
  <= max_iterations.
Proof.
  rewrite requests_exchanges, length_fmap, _handle_tool_execution_exchanges.
  eapply chain_length, tool_loop_chain.
Qed.

(** X2. The loop never gives up early: when a query with a tool manager
    returns although the last response received still stops for tool use,
    the query issued all of its 1 + 3 requests. *)
Theorem returns_on_tool_use_only_at_cap {World : Type}
    (self : AIGenerator World) (query : string) (history : option string)
    (ts : option (list json)) (tm : ToolExecutor World) (w : World)
    (s : string) (req : Request) (final : Response) :
  result (generate_response self query history ts (Some tm) w) = Ok s ->
  last (exchanges (trace (generate_response self query history ts (Some tm) w)))
    = Some (req, Ok final) ->
  stop_reason final = "tool_use" ->
  length (requests (trace (generate_response self query history ts (Some tm) w)))
    = 1 + 3.
Proof.
  unfold generate_response, bind. generalize 3. intros n.
  rewrite call_create_run. simpl.
  destruct (messages_create _ _ _) as [[r0|e] w0]; simpl; [|discriminate].
  destruct (stop_reason r0 =? "tool_use") eqn:Hr0.
  - unfold _handle_tool_execution, bind.
    destruct (result (tool_loop _ _ _ _ _ _ _)) as [final'|e] eqn:Hloop;
      simpl; [|discriminate].
    rewrite app_nil_r, last_cons. intros _ Hlast Hstop.
    pose proof (tool_loop_final _ _ _ _ _ _ _ _ Hloop) as Hfinal.
    assert (final' = final) as ->.
    { destruct (last _) as [[req' out']|].
      - injection Hlast as [= -> ->]. congruence.
      - injection Hlast as [= _ ->]. assumption. }
    f_equal. rewrite requests_exchanges, length_fmap.
    eapply tool_loop_exhausts; eassumption.
  - rewrite first_block_text_trace. simpl. intros _ [= _ <-] Hstop.
    apply String.eqb_neq in Hr0. contradiction.
Qed.

Lemma returns_on_tool_use_only_at_cap_witness :
  length (requests (trace
    (generate_response scripted_generator "What is Python?" None
       (Some sample_tools) (Some (constant_tools "Search results"))
       [Ok tool_use_response; Ok tool_use_response;
        Ok tool_use_response; Ok tool_use_response]))) = 1 + 3.
Proof.
  eapply (returns_on_tool_use_only_at_cap scripted_generator
            "What is Python?" None (Some sample_tools)
            (constant_tools "Search results")
            [Ok tool_use_response; Ok tool_use_response;
             Ok tool_use_response; Ok tool_use_response]
            NO_TEXT_RESPONSE _ tool_use_response);
    reflexivity.
Defined.

(** X3. A follow-up request is issued only in reply to a response that
    stops for tool use, and only when a tool manager was given: an exchange
    that has a successor did not raise and its response has the stop reason
    "tool_use". *)
Theorem followup_only_after_tool_use {World : Type}
    (self : AIGenerator World) (query : string) (history : option string)
    (ts : option (list json)) (tmo : option (ToolExecutor World)) (w : World)
    (i : nat) (r1 r2 : Request) (o1 o2 : Outcome Response) :
  exchanges (trace (generate_response self query history ts tmo w)) !! i
    = Some (r1, o1) ->
  exchanges (trace (generate_response self query history ts tmo w)) !! S i
    = Some (r2, o2) ->
  tmo <> None /\
  exists resp1, o1 = Ok resp1 /\ stop_reason resp1 = "tool_use".
Proof.
  intros H1 H2.
  apply exchanges_lookup_rounds in H1 as [t1 H1].
  apply exchanges_lookup_rounds in H2 as [t2 H2].
  destruct (generate_response_adjacent _ _ _ _ _ _ _ _ _ _ _ _ _ H1 H2)
    as (tm & resp1 & -> & -> & Hstop & _).
  split; [discriminate|]. now exists resp1.
Qed.

Lemma followup_only_after_tool_use_witness :
  exists resp1,
    Ok tool_use_response = Ok resp1 /\ stop_reason resp1 = "tool_use".
Proof.
  refine (proj2 (followup_only_after_tool_use scripted_generator
                   "What is Python?" None (Some sample_tools)
                   (Some (constant_tools "Search results"))
                   [Ok tool_use_response; Ok final_response]
                   0 _ _ (Ok tool_use_response) _ eq_refl eq_refl)).
Defined.

(** ** Tool executions and the requests they lead to *)

(** X4. Between a response and the follow-up request exactly the tools of
    the tool_use blocks of the response are executed, in the order of the
    blocks and with their names and inputs, none of them raising; the
    follow-up request carries the earlier messages, the response as an
    assistant turn and the tool results, which pair the id of each block
    with the string its execution returned. *)
Theorem follow_up_after_executions {World : Type}
    (self : AIGenerator World) (query : string) (history : option string)
    (ts : option (list json)) (tmo : option (ToolExecutor World)) (w : World)
    (i : nat) (t1 t2 : list Event) (r1 r2 : Request)
    (resp1 : Response) (o2 : Outcome Response) :
  rounds (trace (generate_response self query history ts tmo w)) !! i
    = Some (t1, r1, Ok resp1) ->
  rounds (trace (generate_response self query history ts tmo w)) !! S i
    = Some (t2, r2, o2) ->
  quiet t2 /\
  tool_calls t2 = tool_use_calls (resp_content resp1) /\
  messages r2 =
    add_tool_results (messages r1 ++ [assistant_turn resp1])
      (tool_results_of (resp_content resp1) (tool_outputs t2)).
Proof.
  intros H1 H2.
  destruct (generate_response_adjacent _ _ _ _ _ _ _ _ _ _ _ _ _ H1 H2)
    as (tm & resp & _ & [= <-] & _ & Hq & Hcalls & ->).
  repeat split; auto. unfold follow_up. apply next_params_messages.
Qed.

Lemma follow_up_after_executions_witness :
  exists r2,
    requests (trace
      (generate_response scripted_generator "What is Python?" None
         (Some sample_tools) (Some (constant_tools "Search results"))
         [Ok tool_use_response; Ok final_response])) !! 1 = Some r2 /\
    messages r2 =
      [mkMessage "user" (TextContent "What is Python?");
       assistant_turn tool_use_response;
       user_turn [mkToolResult "tool_result" "tool_123" "Search results"]].
Proof.
  eexists. split; [reflexivity|].
  exact (proj2 (proj2
    (follow_up_after_executions scripted_generator "What is Python?" None
       (Some sample_tools) (Some (constant_tools "Search results"))
       [Ok tool_use_response; Ok final_response]
       0 _ _ _ _ tool_use_response _ eq_refl eq_refl))).
Defined.

(** X5. In a query during which no call raises, the tools executed are
    those asked for by the tool_use blocks of every response but the last,
    each executed once, in the order of the responses and of their blocks:
    the tool_use blocks of the last response are never executed. *)
Theorem executed_tools_are_those_asked {World : Type}
    (self : AIGenerator World) (query : string) (history : option string)
    (ts : option (list json)) (tmo : option (ToolExecutor World)) (w : World) :
  quiet (trace (generate_response self query history ts tmo w)) ->
  tool_calls (trace (generate_response self query history ts tmo w)) =
    flat_map (fun r => tool_use_calls (resp_content r))
      (answered
         (exchanges (trace (generate_response self query history ts tmo w)))).
Proof.
  unfold generate_response, bind. generalize 3. intros n.
  rewrite call_create_run. simpl.
  destruct (messages_create _ _ _) as [[r0|e] w0]; simpl; [|reflexivity].
  assert (Hdirect :
    tool_calls (trace (first_block_text r0 w0)) =
    flat_map (fun r => tool_use_calls (resp_content r))
      (answered
         ((api_params_of self query history ts, Ok r0)
          :: exchanges (trace (first_block_text r0 w0))))).
  { now rewrite first_block_text_trace. }
  destruct tmo as [tm|]; [|intros _; exact Hdirect].
  destruct (stop_reason r0 =? "tool_use"); [|intros _; exact Hdirect].
  clear Hdirect. unfold _handle_tool_execution, bind. intros Hq.
  inversion Hq as [|? ? _ Hq']. subst.
  destruct (result (tool_loop _ _ _ _ _ _ _)) as [final|e] eqn:Hloop;
    simpl in *.
  - rewrite app_nil_r.
    apply (tool_loop_tool_calls _ _ _ _ _ _ _
             (api_params_of self query history ts) _ Hloop).
  - apply tool_loop_total in Hq' as [final Hq']. congruence.
Qed.

Lemma executed_tools_are_those_asked_witness :
  tool_calls (trace
    (generate_response scripted_generator "What is Python?" None
       (Some sample_tools) (Some (constant_tools "Search results"))
       [Ok announced_tool_use; Ok tool_use_response;
        Ok tool_use_response; Ok tool_use_response]))
  = [("search_course_content", [("query", JStr "Python basics")]);
     ("search_course_content", [("query", JStr "Python basics")]);
     ("search_course_content", [("query", JStr "Python basics")])].
Proof.
  rewrite (executed_tools_are_those_asked scripted_generator
             "What is Python?" None (Some sample_tools)
             (Some (constant_tools "Search results"))
             [Ok announced_tool_use; Ok tool_use_response;
              Ok tool_use_response; Ok tool_use_response]).
  - reflexivity.
  - repeat constructor.
Defined.

(** X6. A first response that does not stop for tool use is never acted
    upon, tool manager or not: the query consists of that single exchange and
    no tool is executed, even if the response holds tool_use blocks. The
    outcome is that of reading the text of the first block: the text when
    the first block has one, an IndexError when the response has no block
    and an AttributeError when the first block has no text. *)
Theorem other_stop_reason_runs_no_tool {World : Type}
    (self : AIGenerator World) (query : string) (history : option string)
    (ts : option (list json)) (tmo : option (ToolExecutor World)) (w : World)
    (response : Response) :
  (messages_create (client self) (api_params_of self query history ts) w).1
    = Ok response ->
  stop_reason response <> "tool_use" ->
  trace (generate_response self query history ts tmo w) =
    [EvCreate (api_params_of self query history ts) (Ok response)] /\
  result (generate_response self query history ts tmo w) =
    match resp_content response with
    | [] => Raise IndexError
    | block :: _ =>
        match block_text block with
        | Some t => Ok t
        | None => Raise (AttributeError block)
        end
    end.
Proof.
  intros Hout Hstop. apply String.eqb_neq in Hstop.
  unfold generate_response, bind. rewrite call_create_run, Hout. simpl.
  assert (Hsame :
    (match tmo with
     | Some tm =>
         if stop_reason response =? "tool_use"
         then _handle_tool_execution self response
                (api_params_of self query history ts) tm 3
         else first_block_text response
     | None => first_block_text response
     end) = first_block_text response).
  { destruct tmo; [now rewrite Hstop|reflexivity]. }
  rewrite Hsame, first_block_text_trace. split; [reflexivity|].
  simpl. unfold first_block_text.
  destruct (resp_content response) as [|block rest]; [reflexivity|].
  now destruct (block_text block).
Qed.

Lemma other_stop_reason_runs_no_tool_witness :
  tool_calls (trace
    (generate_response scripted_generator "What is Python?" None
       (Some sample_tools) (Some (constant_tools "Search results"))
       [Ok truncated_response; Ok final_response])) = [] /\
  result
    (generate_response scripted_generator "What is Python?" None
       (Some sample_tools) (Some (constant_tools "Search results"))
       [Ok truncated_response; Ok final_response])
  = Ok "Let me search the course.".
Proof.
  destruct (other_stop_reason_runs_no_tool scripted_generator
              "What is Python?" None (Some sample_tools)
              (Some (constant_tools "Search results"))
              [Ok truncated_response; Ok final_response]
              truncated_response eq_refl)
    as [Htrace Hresult].
  - discriminate.
  - split.
    + now rewrite Htrace.
    + exact Hresult.
Defined.

(** ** The text of the tool path *)

(** X7. Once the tool loop is entered the query raises nothing of its own:
    when no call raises it returns the text extracted from the last
    response received, and when it ends with an exception, that exception
    was raised by the last call of the trace. *)
Theorem tool_path_returns_or_reraises {World : Type}
    (self : AIGenerator World) (query : string) (history : option string)
    (ts : option (list json)) (tm : ToolExecutor World) (w : World)
    (r0 : Response) :
  (messages_create (client self) (api_params_of self query history ts) w).1
    = Ok r0 ->
  stop_reason r0 = "tool_use" ->
  (quiet (trace (generate_response self query history ts (Some tm) w)) ->
   exists req final,
     last (exchanges
             (trace (generate_response self query history ts (Some tm) w)))
       = Some (req, Ok final) /\
     result (generate_response self query history ts (Some tm) w)
       = Ok (extract_text final)) /\
  (forall e,
      result (generate_response self query history ts (Some tm) w) = Raise e ->
      exists pre ev,
        trace (generate_response self query history ts (Some tm) w)
          = pre ++ [ev] /\
        raised ev = Some e).
Proof.
  intros Hout Hstop.
  pose proof (tool_path_text self query history ts tm w r0 Hout Hstop)
    as Htext.
  split; [exact Htext|].
  intros e He.
  destruct (generate_response_propagating self query history ts (Some tm) w)
    as [Hq|(pre & ev & e' & Htr & _ & Hev & Hres)].
  - destruct (Htext Hq) as (req & final & _ & Hok). congruence.
  - exists pre, ev. split; [assumption|congruence].
Qed.

Lemma tool_path_returns_or_reraises_witness :
  exists req final,
    last (exchanges (trace
      (generate_response scripted_generator "What is Python?" None
         (Some sample_tools) (Some (constant_tools "Search results"))
         [Ok tool_use_response; Ok late_text_response])))
      = Some (req, Ok final) /\
    result
      (generate_response scripted_generator "What is Python?" None
         (Some sample_tools) (Some (constant_tools "Search results"))
         [Ok tool_use_response; Ok late_text_response])
      = Ok (extract_text final).
Proof.
  apply (tool_path_returns_or_reraises scripted_generator "What is Python?"
           None (Some sample_tools) (constant_tools "Search results")
           [Ok tool_use_response; Ok late_text_response] tool_use_response).
  - reflexivity.
  - reflexivity.
  - repeat constructor.
Defined.

(** X8. The final text is read off the content of the last response: the
    first fallback text when there is no content block, the text of the
    first block that has one, whatever precedes and follows it, and the
    second fallback text when there are blocks and none has text. *)
Theorem extract_text_cases (response : Response) :
  (resp_content response = [] -> extract_text response = NO_RESPONSE) /\
  (forall pre t post,
      resp_content response = pre ++ TextBlock t :: post ->
      Forall (fun b => block_text b = None) pre ->
      extract_text response = t) /\
  (resp_content response <> [] ->
   Forall (fun b => block_text b = None) (resp_content response) ->
   extract_text response = NO_TEXT_RESPONSE).
Proof.
  split; [apply extract_text_empty|]. split.
  - intros pre t post Hcontent Hpre.
    rewrite extract_text_nonempty by (rewrite Hcontent; now destruct pre).
    assert (first_text (resp_content response) = Some t) as ->; [|reflexivity].
    apply first_text_Some. now exists pre, post.
  - intros Hne Hnone. rewrite (extract_text_nonempty _ Hne).
    apply first_text_None in Hnone. now rewrite Hnone.
Qed.

Lemma extract_text_cases_witness :
  extract_text late_text_response = "MCP is a protocol.".
Proof.
  apply (proj1 (proj2 (extract_text_cases late_text_response))
           [ThinkingBlock "The search returned one lesson.";
            ToolUseBlock "tool_7" "get_course_outline"
                         [("course_name", JStr "MCP")]]
           "MCP is a protocol."
           [TextBlock "It has three lessons."]).
  - reflexivity.
  - repeat constructor.
Defined.

(** ** The message history *)

(** X9. The message history only grows: the messages of a request are those
    of every earlier request of the query followed by one or two new turns
    per request in between, so no earlier turn is dropped, reordered or
    rewritten; and the first message of every request is the user's
    query. *)
Theorem history_is_append_only {World : Type}
    (self : AIGenerator World) (query : string) (history : option string)
    (ts : option (list json)) (tmo : option (ToolExecutor World)) (w : World)
    (i j : nat) (ri rj : Request) (oi oj : Outcome Response) :
  exchanges (trace (generate_response self query history ts tmo w)) !! i
    = Some (ri, oi) ->
  exchanges (trace (generate_response self query history ts tmo w)) !! j
    = Some (rj, oj) ->
  i <= j ->
  (exists later,
      messages rj = messages ri ++ later /\
      j - i <= length later <= 2 * (j - i)) /\
  messages rj !! 0 = Some (mkMessage "user" (TextContent query)).
Proof.
  intros Hi Hj Hle. split.
  - eapply generate_response_prefix; eassumption.
  - destruct (generate_response_exchanges self query history ts tmo w)
      as (xs & Hxs & _).
    assert (H0 : exchanges
                   (trace (generate_response self query history ts tmo w))
                 !! 0
                 = Some (api_params_of self query history ts,
                         (messages_create (client self)
                            (api_params_of self query history ts) w).1)).
    { now rewrite Hxs. }
    destruct (generate_response_prefix _ _ _ _ _ _ _ _ _ _ _ _ H0 Hj)
      as (later & -> & _); [lia|].
    now rewrite api_params_messages.
Qed.

Lemma history_is_append_only_witness :
  exists r1 r2 later,
    requests (trace
      (generate_response scripted_generator "What is Python?" None
         (Some sample_tools) (Some (constant_tools "Search results"))
         [Ok tool_use_response; Ok lookup_announcement; Ok final_response]))
      !! 2 = Some r2 /\
    messages r2 = messages r1 ++ later /\
    1 <= length later <= 2 /\
    messages r2 !! 0 = Some (mkMessage "user" (TextContent "What is Python?")).
Proof.
  destruct (history_is_append_only scripted_generator "What is Python?" None
              (Some sample_tools) (Some (constant_tools "Search results"))
              [Ok tool_use_response; Ok lookup_announcement;
               Ok final_response]
              1 2 _ _ _ _ eq_refl eq_refl)
    as [(later & Hlater & Hlen) Hfirst]; [lia|].
  eexists _, _, later. split; [reflexivity|]. split; [exact Hlater|].
  split; [exact Hlen|exact Hfirst].
Defined.

(** X10. When every response the loop answers holds at least one tool_use
    block, the roles of the messages of each request alternate: the k-th
    follow-up request carries the user query and then k pairs of an
    assistant turn and a user turn, and ends with a user turn. *)
Theorem roles_alternate {World : Type}
    (self : AIGenerator World) (query : string) (history : option string)
    (ts : option (list json)) (tmo : option (ToolExecutor World)) (w : World) :
  (forall i r resp r' o',
      exchanges (trace (generate_response self query history ts tmo w)) !! i
        = Some (r, Ok resp) ->
      exchanges (trace (generate_response self query history ts tmo w)) !! S i
        = Some (r', o') ->
      tool_use_ids (resp_content resp) <> []) ->
  forall k r o,
    exchanges (trace (generate_response self query history ts tmo w)) !! k
      = Some (r, o) ->
    role <$> messages r = alternating k.
Proof.
  intros Hblocks k. induction k as [|k IH]; intros r o Hk.
  - destruct (generate_response_exchanges self query history ts tmo w)
      as (xs & Hxs & _).
    rewrite Hxs in Hk. injection Hk as [= <- _].
    now rewrite api_params_messages.
  - destruct (lookup_lt_is_Some_2
                (exchanges
                   (trace (generate_response self query history ts tmo w)))
                k) as [[r' o'] Hk'].
    { apply lookup_lt_Some in Hk. lia. }
    destruct (generate_response_next_messages _ _ _ _ _ _ _ _ _ _ _ Hk' Hk)
      as (resp' & results & -> & Hids & ->).
    specialize (Hblocks _ _ _ _ _ Hk' Hk).
    destruct results as [|res results].
    + now rewrite <- Hids in Hblocks.
    + simpl. rewrite <- app_assoc, fmap_app, (IH _ _ Hk'). reflexivity.
Qed.

Lemma roles_alternate_witness :
  exists r,
    requests (trace
      (generate_response scripted_generator "What is Python?" None
         (Some sample_tools) (Some (constant_tools "Search results"))
         [Ok tool_use_response; Ok tool_use_response; Ok final_response]))
      !! 2 = Some r /\
    role <$> messages r = ["user"; "assistant"; "user"; "assistant"; "user"].
Proof.
  eexists. split; [reflexivity|].
  refine (roles_alternate scripted_generator "What is Python?" None
            (Some sample_tools) (Some (constant_tools "Search results"))
            [Ok tool_use_response; Ok tool_use_response; Ok final_response]
            _ 2 _ _ eq_refl).
  intros [|[|[|i]]] r resp r' o'; simpl; try discriminate.
  - intros [= <- <-] _. discriminate.
  - intros [= <- <-] _. discriminate.
Defined.

(** ** Optional arguments *)

(** X11. The tool schemas are attached to every request of a query exactly
    when the tools argument is a non-empty list: an empty list is treated as
    no tools at all, and no request then carries a tools or a tool_choice
    key. *)
Theorem tools_attached_when_non_empty {World : Type}
    (self : AIGenerator World) (query : string) (history : option string)
    (ts : option (list json)) (tmo : option (ToolExecutor World)) (w : World) :
  Forall (fun req =>
            tools req = (if list_truthy ts then ts else None) /\
            tool_choice req =
              (if list_truthy ts then Some (mkToolChoice "auto") else None))
         (requests (trace (generate_response self query history ts tmo w))).
Proof.
  destruct (generate_response_requests self query history ts tmo w)
    as (followups & -> & _ & Hfollow).
  assert (Hapi :
    tools (api_params_of self query history ts)
      = (if list_truthy ts then ts else None) /\
    tool_choice (api_params_of self query history ts)
      = (if list_truthy ts then Some (mkToolChoice "auto") else None)).
  { rewrite api_params_tool_choice, api_params_tools.
    now destruct ts as [[|]|]. }
  constructor; [exact Hapi|].
  eapply Forall_impl; [exact Hfollow|].
  intros req (msgs & ->). simpl.
  rewrite next_params_tool_choice, next_params_tools.
  destruct Hapi as [Htools Hchoice]. split; [assumption|].
  now rewrite <- api_params_tool_choice.
Qed.

(** X12. The system content of every request of a query, follow-ups
    included, is the fixed template alone when the history is absent or is
    the empty string, and otherwise the template, a blank line, the header
    "Previous conversation:" and the history, with nothing after it. *)
Theorem system_content_layout {World : Type}
    (self : AIGenerator World) (query : string) (history : option string)
    (ts : option (list json)) (tmo : option (ToolExecutor World)) (w : World) :
  Forall (fun req =>
            system req =
              match history with
              | Some (String c h) =>
                  SYSTEM_PROMPT +:+ nl +:+ nl +:+ "Previous conversation:"
                  +:+ nl +:+ String c h
              | _ => SYSTEM_PROMPT
              end)
         (requests (trace (generate_response self query history ts tmo w))).
Proof.
  destruct (generate_response_requests self query history ts tmo w)
    as (followups & -> & _ & Hfollow).
  assert (Hsys :
    system (api_params_of self query history ts) =
      match history with
      | Some (String c h) =>
          SYSTEM_PROMPT +:+ nl +:+ nl +:+ "Previous conversation:"
          +:+ nl +:+ String c h
      | _ => SYSTEM_PROMPT
      end).
  { rewrite api_params_system. now destruct history as [[|c h]|]. }
  constructor; [exact Hsys|].
  eapply Forall_impl; [exact Hfollow|].
  intros req (msgs & ->). simpl. now rewrite next_params_system.
Qed.

(** ** The base parameters of the loop *)

(** X13. [_handle_tool_execution] reads three keys of its base parameters:
    the messages, the system content and the tools. Base parameters that
    agree on these give the same run, whatever their model, temperature,
    max_tokens and tool_choice are: the follow-up requests take those from
    the generator. *)
Theorem handle_tool_execution_reads_three_keys {World : Type}
    (self : AIGenerator World) (initial_response : Response)
    (base base' : Request) (tm : ToolExecutor World) (max_iterations : nat)
    (w : World) :
  messages base = messages base' ->
  system base = system base' ->
  tools base = tools base' ->
  _handle_tool_execution self initial_response base tm max_iterations w =
  _handle_tool_execution self initial_response base' tm max_iterations w.
Proof.
  intros Hmessages Hsystem Htools. unfold _handle_tool_execution, bind.
  now rewrite Hmessages, (tool_loop_base_params self base base' tm
                            max_iterations _ _ _ Hsystem Htools).
Qed.

Lemma handle_tool_execution_reads_three_keys_witness :
  _handle_tool_execution scripted_generator tool_use_response
    (mkRequest "another-model" 1 10
       [mkMessage "user" (TextContent "test query")] "System prompt"
       None (Some (mkToolChoice "any")))
    (constant_tools "Search results") 3 [Ok final_response]
  =
  _handle_tool_execution scripted_generator tool_use_response
    (mkRequest "test-model" 0 800
       [mkMessage "user" (TextContent "test query")] "System prompt"
       None None)
    (constant_tools "Search results") 3 [Ok final_response].
Proof.
  apply handle_tool_execution_reads_three_keys; reflexivity.
Defined.

(** ** No tool without a request for it *)

(** X14. In every query, also one that ends with an exception, the tools
    executed are an initial part of the tools the received responses asked
    for, in the order of the responses and of their blocks: no tool is
    executed that no response asked for, none out of order and none twice
    for one block. *)
Theorem executed_tools_were_asked {World : Type}
    (self : AIGenerator World) (query : string) (history : option string)
    (ts : option (list json)) (tmo : option (ToolExecutor World)) (w : World) :
  tool_calls (trace (generate_response self query history ts tmo w))
    `prefix_of`
  flat_map (fun r => tool_use_calls (resp_content r))
    (responses
       (exchanges (trace (generate_response self query history ts tmo w)))).
Proof.
  unfold generate_response, bind. generalize 3. intros n.
  rewrite call_create_run. simpl.
  destruct (messages_create _ _ _) as [[r0|e] w0]; simpl;
    [|apply prefix_nil].
  assert (Hdirect :
    tool_calls (trace (first_block_text r0 w0)) `prefix_of`
    tool_use_calls (resp_content r0) ++
    flat_map (fun r => tool_use_calls (resp_content r))
      (responses (exchanges (trace (first_block_text r0 w0))))).
  { rewrite first_block_text_trace. apply prefix_nil. }
  destruct tmo as [tm|]; [|exact Hdirect].
  destruct (stop_reason r0 =? "tool_use"); [|exact Hdirect].
  clear Hdirect. unfold _handle_tool_execution, bind.
  destruct (result (tool_loop _ _ _ _ _ _ _)) as [final|e]; simpl;
    [rewrite app_nil_r|]; apply tool_loop_calls_prefix.
Qed.
